(** * Income-statement extraction pipeline (src/main.py)

    A shallow embedding of the text-to-record pipeline of [src/main.py]
    (page-bounded text extraction, candidate line filter, numeric token
    parser, label normalizer, orchestrating request handler) and the
    properties its specification states about it.

    Text model.  A Python [str] is a sequence of code points.  Here a
    string is a [list ascii], one [ascii] per code point, so the model
    covers exactly the strings whose code points are below 256.  On that
    range [str.lower], [str.strip] and the regex class [\d] are the
    tables written out in [Py] below; [lower] is character-wise and
    length-preserving there.

    External collaborators.  [pdfplumber] (document decoding, per-page
    text) and [pandas] ([DataFrame.to_csv]) are libraries, not code of
    this repository: they are the fields of the classes [PdfPlumber] and
    [Pandas], and every theorem about the pipeline holds for all of their
    instances.

    State.  The functions of the pipeline are embedded twice: as
    functions of their arguments, which is what most properties are
    about, and in [Stateful] as computations over the state of the
    process, with the lists and the stream the code changes in place
    kept in a heap and the libraries given a state of their own
    ([Libraries]).  The second embedding is there for the properties
    about what one run of the handler leaves to the next. *)

From Stdlib Require Import String Ascii Bool Arith NArith Lia List.
From Stdlib Require Import Init.Byte.
Import ListNotations.

Set Implicit Arguments.

(* ================================================================== *)
(** * Part I: definitions *)
(* ================================================================== *)

(** A Python string (code points below 256). *)
Definition str : Type := list ascii.

(** A string literal of the source. *)
Definition lit (s : string) : str := list_ascii_of_string s.

(** ** Python string primitives used by the program *)
Module Py.

Definition code (c : ascii) : N := N_of_ascii c.

Definition in_range (lo hi : N) (c : ascii) : bool :=
  ((lo <=? code c) && (code c <=? hi))%N.

(** [c.isspace()]: the characters [str.strip()] removes.  Below 256
    these are TAB..CR, FS..US, SPACE, NEL (0x85) and NBSP (0xA0). *)
Definition isspace (c : ascii) : bool :=
  in_range 9 13 c || in_range 28 32 c
  || (code c =? 133)%N || (code c =? 160)%N.

(** The regex class [\d] on [str] patterns: the decimal digits; below
    256 these are ['0'..'9']. *)
Definition isdecimal (c : ascii) : bool := in_range 48 57 c.

(** [c.lower()]: A..Z, and the Latin-1 capitals 0xC0..0xDE except the
    multiplication sign 0xD7, move up by 32. *)
Definition lower_char (c : ascii) : ascii :=
  if in_range 65 90 c || in_range 192 214 c || in_range 216 222 c
  then ascii_of_N (code c + 32)
  else c.

(** [s.lower()] *)
Definition lower (s : str) : str := map lower_char s.

(** [s.lstrip()] *)
Fixpoint lstrip (s : str) : str :=
  match s with
  | [] => []
  | c :: s' => if isspace c then lstrip s' else s
  end.

(** [s.rstrip()] *)
Definition rstrip (s : str) : str := rev (lstrip (rev s)).

(** [s.strip()] *)
Definition strip (s : str) : str := rstrip (lstrip s).

(** [s.startswith(p)] *)
Fixpoint startswith (p s : str) : bool :=
  match p, s with
  | [], _ => true
  | _ :: _, [] => false
  | a :: p', b :: s' => Ascii.eqb a b && startswith p' s'
  end.

(** [sub in s]: substring test. *)
Fixpoint contains (sub s : str) : bool :=
  startswith sub s ||
  match s with
  | [] => false
  | _ :: s' => contains sub s'
  end.

(** [a == b] on strings. *)
Fixpoint eqb (a b : str) : bool :=
  match a, b with
  | [], [] => true
  | x :: a', y :: b' => Ascii.eqb x y && eqb a' b'
  | _, _ => false
  end.

(** [s.split(sep)] for a one-character separator: always at least one
    piece, one more piece than there are separators. *)
Fixpoint split (sep : ascii) (s : str) : list str :=
  match s with
  | [] => [[]]
  | c :: s' =>
      if Ascii.eqb c sep then [] :: split sep s'
      else match split sep s' with
           | piece :: pieces => (c :: piece) :: pieces
           | [] => [[c]]
           end
  end.

(** [s.replace(old, new)] for a one-character [old]. *)
Fixpoint replace (old : ascii) (new : str) (s : str) : str :=
  match s with
  | [] => []
  | c :: s' =>
      if Ascii.eqb c old then new ++ replace old new s'
      else c :: replace old new s'
  end.

(** [sep.join(parts)] *)
Fixpoint join (sep : str) (parts : list str) : str :=
  match parts with
  | [] => []
  | [p] => p
  | p :: rest => p ++ sep ++ join sep rest
  end.

(** Truth value of a list or string: non-empty. *)
Definition truthy {A : Type} (l : list A) : bool :=
  match l with
  | [] => false
  | _ :: _ => true
  end.

(** [any(f(x) for x in l)] *)
Definition any {A : Type} (f : A -> bool) (l : list A) : bool := existsb f l.

End Py.

(** ** A backtracking matcher for the regex fragment the program uses *)
Module Re.

(** A set of characters: a predicate on one character. *)
Definition charset : Type := ascii -> bool.

(** A literal character, such as [\(] or [,]. *)
Definition chr (c : ascii) : charset := Ascii.eqb c.

(** [\d] *)
Definition digit : charset := Py.isdecimal.

(** [[...]]: the union of its items. *)
Definition bracket (items : list charset) : charset :=
  fun c => existsb (fun p => p c) items.

Inductive regex : Type :=
| One (p : charset)            (* one character of the set *)
| Opt (r : regex)              (* r?  (greedy) *)
| Star (p : charset)           (* p*  (greedy), p a character set *)
| Cat (r1 r2 : regex).         (* r1 r2 *)

(** Greedy [p*] followed by the continuation [k]: take as many
    characters as possible, give one back each time [k] fails. *)
Fixpoint star_bt (p : charset) (s : str) (k : str -> option str)
  : option str :=
  match s with
  | c :: s' =>
      if p c then
        match star_bt p s' k with
        | Some rest => Some rest
        | None => k s
        end
      else k s
  | [] => k s
  end.

(** [bt r s k]: match [r] at the start of [s], then [k] on what is
    left; the first success in the engine's preference order wins.
    The result is the text left after the whole match. *)
Fixpoint bt (r : regex) (s : str) (k : str -> option str) : option str :=
  match r with
  | One p =>
      match s with
      | c :: s' => if p c then k s' else None
      | [] => None
      end
  | Opt r1 =>
      match bt r1 s k with
      | Some rest => Some rest
      | None => k s
      end
  | Star p => star_bt p s k
  | Cat r1 r2 => bt r1 s (fun s' => bt r2 s' k)
  end.

(** An anchored match of [r] at the start of [s]: the matched text and
    the text after it. *)
Definition match_at (r : regex) (s : str) : option (str * str) :=
  match bt r s Some with
  | Some rest => Some (firstn (length s - length rest) s, rest)
  | None => None
  end.

(** The scan of [re.findall]: at each position try an anchored match;
    on success keep the matched text and go on after it (one character
    further after an empty match); on failure move one character on. *)
Fixpoint findall_from (fuel : nat) (r : regex) (s : str) : list str :=
  match fuel with
  | 0 => []
  | S fuel' =>
      match match_at r s with
      | Some ([], _) =>
          [] :: match s with
                | [] => []
                | _ :: s' => findall_from fuel' r s'
                end
      | Some (m, rest) => m :: findall_from fuel' r rest
      | None =>
          match s with
          | [] => []
          | _ :: s' => findall_from fuel' r s'
          end
      end
  end.

(** [re.findall(r, s)] for a pattern without groups.  Every step of
    the scan either stops or drops a character, so [S (length s)]
    steps are enough ([findall_from_enough] below). *)
Definition findall (r : regex) (s : str) : list str :=
  findall_from (S (length s)) r s.

(** [re.search(r, s)] as a truth value: is there a position of [s]
    where [r] matches. *)
Fixpoint search (r : regex) (s : str) : bool :=
  match match_at r s with
  | Some _ => true
  | None =>
      match s with
      | [] => false
      | _ :: s' => search r s'
      end
  end.

End Re.

(** ** Exceptions: a result is a returned value or a raised exception *)

Inductive result (E A : Type) : Type :=
| Return (a : A)
| Raise (e : E).

Arguments Return {E A} a.
Arguments Raise {E A} e.

Definition bind {E A B : Type} (c : result E A) (k : A -> result E B)
  : result E B :=
  match c with
  | Return a => k a
  | Raise e => Raise e
  end.

Notation "x <- c ;; k" := (bind c (fun x => k))
  (at level 61, c at next level, right associativity).

(** ** External collaborators *)

(** [pdfplumber]: opening a byte stream may raise; an open document has
    pages; [page.extract_text()] may raise, and gives [None] (or an empty
    string) for a page without extractable text. *)
Class PdfPlumber : Type := {
  pdf_exn : Type;
  pdf : Type;
  page : Type;
  pdf_open : list byte -> result pdf_exn pdf;
  pdf_pages : pdf -> list page;
  page_extract_text : page -> result pdf_exn (option str)
}.

(** One row of the table: the dict built in [extract_financials]. *)
Record row : Type := {
  raw_line : str;        (* "Raw Line" *)
  standard_label : str;  (* "Standard Label" *)
  values_found : str     (* "Values Found" *)
}.

(** A [DataFrame] built from a list of such dicts: its rows, in order. *)
Definition DataFrame : Type := list row.

(** [df.empty] *)
Definition df_empty (df : DataFrame) : bool := negb (Py.truthy df).

(** [pandas]: [df.to_csv(stream, index=False)] and the text written. *)
Class Pandas : Type := {
  to_csv : DataFrame -> str
}.

(** The [StreamingResponse] the endpoint returns. *)
Record response : Type := {
  status_code : nat;
  media_type : str;
  headers : list (str * str);
  body : str
}.

(** [StreamingResponse(iter([content]), media_type=.., headers=..)];
    the status code is the default one, 200. *)
Definition StreamingResponse (content media : str) (hdrs : list (str * str))
  : response :=
  {| status_code := 200; media_type := media; headers := hdrs;
     body := content |}.

(** What the HTTP client sees.  A response the endpoint returns goes out
    with its own status; an exception that leaves the endpoint (the
    endpoint raises no [HTTPException] and installs no handler) is
    answered by the framework's server-error middleware with status 500. *)
Definition http_status {E : Type} (outcome : result E response) : nat :=
  match outcome with
  | Return r => status_code r
  | Raise _ => 500
  end.

(** ** The program, function by function *)

(** The line feed ["\n"]. *)
Definition nl : ascii := "010"%char.

(** The list [financial_terms] of [get_income_statement_lines]. *)
Definition financial_terms : list str :=
  [ lit "revenue"; lit "sales"; lit "cost"; lit "gross";
    lit "operating income"; lit "operating expenses";
    lit "net income"; lit "earnings per share"; lit "eps" ].

(** [get_income_statement_lines(text)] *)
Definition get_income_statement_lines (text : str) : list str :=
  let lines := Py.split nl text in
  fold_left
    (fun extracted line =>
       let clean := Py.strip line in
       let lower := Py.lower clean in
       if Re.search (Re.One Re.digit) clean
          && Py.any (fun term => Py.contains term lower) financial_terms
       then extracted ++ [clean]
       else extracted)
    lines [].

(** The pattern [\(?-?\d[\d,\.]*\)?] of [extract_numbers]. *)
Definition number_re : Re.regex :=
  Re.Cat (Re.Opt (Re.One (Re.chr "(")))
    (Re.Cat (Re.Opt (Re.One (Re.chr "-")))
       (Re.Cat (Re.One Re.digit)
          (Re.Cat (Re.Star (Re.bracket [Re.digit; Re.chr ","; Re.chr "."]))
             (Re.Opt (Re.One (Re.chr ")")))))).

(** The body of the loop of [extract_numbers] for one match. *)
Definition clean_number (num : str) : str :=
  let num := Py.replace "," [] num in
  if Py.contains (lit "(") num && Py.contains (lit ")") num
  then lit "-" ++ Py.replace ")" [] (Py.replace "(" [] num)
  else num.

(** [extract_numbers(line)] *)
Definition extract_numbers (line : str) : list str :=
  let numbers := Re.findall number_re line in
  fold_left
    (fun clean_numbers num => clean_numbers ++ [clean_number num])
    numbers [].

(** [normalize_label(line)] *)
Definition normalize_label (line : str) : str :=
  let lower := Py.lower line in
  if Py.contains (lit "total net sales") lower
     || Py.contains (lit "net sales") lower
  then lit "Revenue"
  else if Py.contains (lit "cost of sales") lower
  then lit "Cost of Revenue"
  else if Py.contains (lit "gross margin") lower
          || Py.contains (lit "gross profit") lower
  then lit "Gross Profit"
  else if Py.contains (lit "operating income") lower
  then lit "Operating Income"
  else if Py.contains (lit "operating expenses") lower
  then lit "Operating Expenses"
  else if Py.contains (lit "net income") lower
          || Py.contains (lit "net profit") lower
          || Py.contains (lit "net earnings") lower
  then lit "Net Income"
  else if Py.contains (lit "earnings per share") lower
          || Py.contains (lit "eps") lower
  then lit "EPS"
  else lit "UNKNOWN".

(** The row appended for a kept line. *)
Definition make_row (line label : str) (numbers : list str) : row :=
  {| raw_line := line;
     standard_label := label;
     values_found := Py.join (lit ", ") numbers |}.

(** The loop of [extract_financials] over the candidate lines, with the
    list [data] it appends to. *)
Definition collect_rows (lines : list str) : list row :=
  fold_left
    (fun data line =>
       let label := normalize_label line in
       let numbers := extract_numbers line in
       if negb (Py.eqb label (lit "UNKNOWN")) && Py.truthy numbers
       then data ++ [make_row line label numbers]
       else data)
    lines [].

(** The fallback row. *)
Definition info_row : row :=
  {| raw_line := lit "No income statement data detected in first 40 pages.";
     standard_label := lit "INFO";
     values_found := [] |}.

(** From the text to the frame that is written out: the part of
    [extract_financials] between the text extraction and [to_csv]. *)
Definition build_frame (text : str) : DataFrame :=
  let lines := get_income_statement_lines text in
  let data := collect_rows lines in
  let df : DataFrame := data in
  if df_empty df then [info_row] else df.

Section Pipeline.

Context {L : PdfPlumber} {P : Pandas}.

(** The loop of [extract_text_from_pdf] with its variable [text]. *)
Fixpoint pages_loop (pages : list page) (text : str)
  : result pdf_exn str :=
  match pages with
  | [] => Return text
  | pg :: rest =>
      page_text <- page_extract_text pg ;;
      match page_text with
      | Some t =>
          if Py.truthy t then pages_loop rest (text ++ t ++ [nl])
          else pages_loop rest text
      | None => pages_loop rest text
      end
  end.

(** [extract_text_from_pdf(file_bytes)] *)
Definition extract_text_from_pdf (file_bytes : list byte)
  : result pdf_exn str :=
  doc <- pdf_open file_bytes ;;
  pages_loop (firstn 40 (pdf_pages doc)) [].

(** [extract_financials(file)], from the bytes read from the upload. *)
Definition extract_financials (contents : list byte)
  : result pdf_exn response :=
  text <- extract_text_from_pdf contents ;;
  let df := build_frame text in
  Return
    (StreamingResponse (to_csv df) (lit "text/csv")
       [ (lit "Content-Disposition",
          lit "attachment; filename=financial_extraction.csv") ]).

End Pipeline.

(** ** The specification's vocabulary *)

(** The Label Normalizer's table, in the order of the specification:
    phrase set, canonical label. *)
Definition label_rules : list (list str * str) :=
  [ ([lit "total net sales"; lit "net sales"], lit "Revenue");
    ([lit "cost of sales"], lit "Cost of Revenue");
    ([lit "gross margin"; lit "gross profit"], lit "Gross Profit");
    ([lit "operating income"], lit "Operating Income");
    ([lit "operating expenses"], lit "Operating Expenses");
    ([lit "net income"; lit "net profit"; lit "net earnings"],
     lit "Net Income");
    ([lit "earnings per share"; lit "eps"], lit "EPS") ].

(** The sentinel for an unrecognized line. *)
Definition Unrecognized : str := lit "UNKNOWN".

(** A phrase set matches when the lowercased line contains one of its
    phrases. *)
Definition rule_matches (lower : str) (rule : list str * str) : bool :=
  existsb (fun phrase => Py.contains phrase lower) (fst rule).

(** The first rule of a table that matches, or the sentinel. *)
Fixpoint first_match (rules : list (list str * str)) (lower : str) : str :=
  match rules with
  | [] => Unrecognized
  | rule :: rest =>
      if rule_matches lower rule then snd rule else first_match rest lower
  end.

(** [sub] occurs in [s]. *)
Definition is_substring (sub s : str) : Prop :=
  exists before after, s = before ++ sub ++ after.

(** The line has a digit character. *)
Definition has_digit (s : str) : bool := existsb Py.isdecimal s.

(** The lowercased line contains one of the financial keywords. *)
Definition has_keyword (lower : str) : bool :=
  existsb (fun term => Py.contains term lower) financial_terms.

(** The Candidate Line Filter's predicate on a trimmed line. *)
Definition is_candidate (clean : str) : bool :=
  has_digit clean && has_keyword (Py.lower clean).

(** A character that may continue a number: a digit, a comma, a period. *)
Definition in_body (c : ascii) : bool :=
  Py.isdecimal c || Ascii.eqb c "," || Ascii.eqb c ".".

(** The shape of a numeric substring: an optional opening parenthesis,
    an optional minus sign, a digit, then digits, commas and periods,
    then an optional closing parenthesis. *)
Inductive token_shape : str -> Prop :=
| token_shape_intro (op mi : str) (d : ascii) (body cl : str) :
    op = [] \/ op = lit "(" ->
    mi = [] \/ mi = lit "-" ->
    Py.isdecimal d = true ->
    forallb in_body body = true ->
    cl = [] \/ cl = lit ")" ->
    token_shape (op ++ mi ++ d :: body ++ cl).

(** The left-to-right scan of the specification: where no substring of
    the numeric shape starts, go one character on; where one starts,
    take the longest one and go on after it. *)
Inductive scans : str -> list str -> Prop :=
| scans_end : scans [] []
| scans_skip (c : ascii) (s : str) (ms : list str) :
    (forall m rest, c :: s = m ++ rest -> ~ token_shape m) ->
    scans s ms ->
    scans (c :: s) ms
| scans_take (m rest : str) (ms : list str) :
    token_shape m ->
    (forall m' rest',
        m ++ rest = m' ++ rest' -> token_shape m' -> length m' <= length m) ->
    scans rest ms ->
    scans (m ++ rest) (m :: ms).

(** A line cut into gaps and matches, left to right:
    [gap1 match1 gap2 match2 ... tail]. *)
Fixpoint interleave (pieces : list (str * str)) (tail : str) : str :=
  match pieces with
  | [] => tail
  | (gap, m) :: rest => gap ++ m ++ interleave rest tail
  end.

(** The longest prefix of [s] made of characters of [p], and the rest. *)
Fixpoint span (p : ascii -> bool) (s : str) : str * str :=
  match s with
  | c :: s' =>
      if p c then let (run, rest) := span p s' in (c :: run, rest)
      else ([], s)
  | [] => ([], [])
  end.

(** The pattern of [extract_numbers] read as a deterministic lexer: each
    optional part is taken when it is there, the run of body characters
    is the longest one. *)
Definition lex_number (s : str) : option (str * str) :=
  let (op, s1) :=
    match s with
    | c :: t => if Ascii.eqb "(" c then ([c], t) else ([], s)
    | [] => ([], s)
    end in
  let (mi, s2) :=
    match s1 with
    | c :: t => if Ascii.eqb "-" c then ([c], t) else ([], s1)
    | [] => ([], s1)
    end in
  match s2 with
  | d :: s3 =>
      if Py.isdecimal d then
        let (body, s4) := span in_body s3 in
        let (cl, s5) :=
          match s4 with
          | c :: t => if Ascii.eqb ")" c then ([c], t) else ([], s4)
          | [] => ([], s4)
          end in
        Some (op ++ mi ++ d :: body ++ cl, s5)
      else None
  | [] => None
  end.

(** A string without its commas. *)
Definition strip_commas (s : str) : str :=
  filter (fun c => negb (Ascii.eqb c ",")) s.

(** A signed decimal numeral: an optional minus sign, digits, and
    optionally a period followed by digits. *)
Definition is_signed_decimal (s : str) : bool :=
  let t := match s with
           | c :: t => if Ascii.eqb c "-" then t else s
           | [] => s
           end in
  let (int_part, rest) := span Py.isdecimal t in
  Py.truthy int_part &&
  match rest with
  | [] => true
  | c :: frac =>
      Ascii.eqb c "." && Py.truthy frac && forallb Py.isdecimal frac
  end.

(** The Orchestrator keeps a candidate line when its label is recognized
    and it has a numeric token. *)
Definition qualifies (line : str) : bool :=
  negb (Py.eqb (normalize_label line) Unrecognized)
  && Py.truthy (extract_numbers line).

(** What one page adds to the document text: its text and a newline, or
    nothing when it has no (or empty) text. *)
Definition page_contribution (page_text : option str) : str :=
  match page_text with
  | Some (c :: t) => (c :: t) ++ [nl]
  | _ => []
  end.

Section PageText.

Context {L : PdfPlumber}.

(** What a page of an open document adds to the text (nothing when
    its extraction raises). *)
Definition contribution_of (pg : page) : str :=
  match page_extract_text pg with
  | Return page_text => page_contribution page_text
  | Raise _ => []
  end.

End PageText.

(** ** Two small collaborators for the examples *)

(** A form feed separates the pages of a plain-text document. *)
Definition ff : ascii := "012"%char.

(** A reader of plain-text documents: the empty byte stream is not a
    document; otherwise the pages are the pieces between form feeds, and
    a page's text is the piece itself. *)
Definition plain_text_reader : PdfPlumber :=
  {| pdf_exn := unit;
     pdf := list str;
     page := str;
     pdf_open := fun file_bytes =>
       match file_bytes with
       | [] => Raise tt
       | _ => Return (Py.split ff (map ascii_of_byte file_bytes))
       end;
     pdf_pages := fun doc => doc;
     page_extract_text := fun pg =>
       Return (if Py.truthy pg then Some pg else None) |}.

(** A writer of comma-separated text that quotes nothing: a header
    line, then one line per row. *)
Definition plain_csv_writer : Pandas :=
  {| to_csv := fun df =>
       lit "Raw Line,Standard Label,Values Found" ++ [nl] ++
       concat (map (fun r => raw_line r ++ lit "," ++ standard_label r
                             ++ lit "," ++ values_found r ++ [nl]) df) |}.

(** The bytes of a text, for the examples. *)
Definition bytes_of (s : string) : list byte := list_byte_of_string s.

(** A document of [n] pages with the same text, for the reader above. *)
Definition same_pages (n : nat) (page_text : string) : list byte :=
  concat (repeat (bytes_of page_text ++ [x0c]) n).

(** Fifty pages: forty with a revenue line, ten with an earnings line. *)
Definition fifty_pages : list byte :=
  same_pages 40 "Net sales 1,200" ++ same_pages 9 "EPS 9.99"
  ++ bytes_of "EPS 9.99".

(** The same forty pages, followed by ten pages of other text. *)
Definition fifty_other_pages : list byte :=
  same_pages 40 "Net sales 1,200" ++ same_pages 9 "Gross margin 77"
  ++ bytes_of "Gross margin 77".

(** ** Vocabulary for further properties of the code *)

(** All the phrases the label normalizer looks for. *)
Definition label_phrases : list str := concat (map fst label_rules).

(** A character that can stand in a match of the number pattern. *)
Definition match_char (c : ascii) : bool :=
  in_body c || Ascii.eqb c "(" || Ascii.eqb c "-" || Ascii.eqb c ")".

(** A character that can stand in a cleaned token: a digit, a period, a
    minus sign or a parenthesis. *)
Definition token_alphabet (c : ascii) : bool :=
  Py.isdecimal c || Ascii.eqb c "." || Ascii.eqb c "-"
  || Ascii.eqb c "(" || Ascii.eqb c ")".

(** A reader like [plain_text_reader] whose text extraction raises on a
    page that starts with an exclamation mark. *)
Definition strict_text_reader : PdfPlumber :=
  {| pdf_exn := str;
     pdf := list str;
     page := str;
     pdf_open := fun file_bytes =>
       match file_bytes with
       | [] => Raise (lit "no document")
       | _ => Return (Py.split ff (map ascii_of_byte file_bytes))
       end;
     pdf_pages := fun doc => doc;
     page_extract_text := fun pg =>
       if Py.startswith (lit "!") pg then Raise pg
       else Return (if Py.truthy pg then Some pg else None) |}.

(** ** The program with its mutable objects

    The handler builds its result in Python objects that it changes in
    place: the lists [extracted], [clean_numbers] and [data] grow by
    [append], the [StringIO] stream is written to.  Here these objects
    live in a heap of cells, a variable that names one holds its
    location, and every function takes the state of the process (the
    heap, and the state of the libraries) and returns it changed.
    Strings are immutable, so are values; the lists returned by
    [split] and [findall] and the literal [financial_terms] are never
    changed after they are made and are values too.  The [io.BytesIO]
    around the bytes is made for [pdfplumber.open] and counts with the
    state of the libraries.  [normalize_label]
    and the body of the loop of [extract_numbers] use no mutable object:
    their embeddings above are used as they are. *)

(** [pdfplumber] and [pandas] as calls that read and change a state of
    their own. *)
Class Libraries (L : PdfPlumber) : Type := {
  lib_state : Type;
  open_call : list byte -> lib_state -> result pdf_exn pdf * lib_state;
  extract_text_call :
    page -> lib_state -> result pdf_exn (option str) * lib_state;
  to_csv_call : DataFrame -> lib_state -> str * lib_state
}.

Module Stateful.

(** The location of an object in the heap. *)
Definition loc : Type := nat.

(** The mutable objects of the program. *)
Inductive object : Type :=
| StrList (items : list str)               (* a list of strings *)
| RowList (items : list row)               (* a list of row dicts *)
| StringIO (buffer : str) (position : nat). (* an [io.StringIO] *)

(** The object at a location replaced (nothing out of range). *)
Fixpoint put (l : loc) (o : object) (h : list object) : list object :=
  match h, l with
  | [], _ => []
  | _ :: t, 0 => o :: t
  | x :: t, S l' => x :: put l' o t
  end.

Section Program.

Context {L : PdfPlumber} {Lib : Libraries L}.

(** The state of the process: the objects allocated so far, and the
    state of the libraries. *)
Record world : Type := {
  heap : list object;
  libs : lib_state
}.

(** How a computation ends: normally, with an exception of a library,
    or with an error of the program itself (a location without object,
    an object of the wrong kind, an iteration that does not end). *)
Inductive outcome (A : Type) : Type :=
| Normal (a : A)
| Exception (e : pdf_exn)
| Fault.

Arguments Normal {A} a.
Arguments Exception {A} e.
Arguments Fault {A}.

(** A computation in the state of the process. *)
Definition M (A : Type) : Type := world -> outcome A * world.

Definition ret {A : Type} (a : A) : M A := fun w => (Normal a, w).

Definition fault {A : Type} : M A := fun w => (Fault, w).

Definition st_bind {A B : Type} (m : M A) (k : A -> M B) : M B :=
  fun w =>
    match m w with
    | (Normal a, w') => k a w'
    | (Exception e, w') => (Exception e, w')
    | (Fault, w') => (Fault, w')
    end.

Local Notation "x <~ m ;; k" := (st_bind m (fun x => k))
  (at level 61, m at next level, right associativity).

(** A call into a library. *)
Definition call {A : Type} (c : lib_state -> result pdf_exn A * lib_state)
  : M A :=
  fun w =>
    let (r, s) := c (libs w) in
    (match r with
     | Return a => Normal a
     | Raise e => Exception e
     end,
     {| heap := heap w; libs := s |}).

(** A new object: it gets the next free location. *)
Definition new_object (o : object) : M loc :=
  fun w =>
    (Normal (length (heap w)),
     {| heap := heap w ++ [o]; libs := libs w |}).

Definition get_object (l : loc) : M object :=
  fun w =>
    match nth_error (heap w) l with
    | Some o => (Normal o, w)
    | None => (Fault, w)
    end.

Definition set_object (l : loc) (o : object) : M unit :=
  fun w =>
    if l <? length (heap w)
    then (Normal tt, {| heap := put l o (heap w); libs := libs w |})
    else (Fault, w).

(** The items of a list of strings, as they are now. *)
Definition read_strs (l : loc) : M (list str) :=
  o <~ get_object l ;;
  match o with
  | StrList items => ret items
  | _ => fault
  end.

(** The items of a list of rows, as they are now. *)
Definition read_rows (l : loc) : M (list row) :=
  o <~ get_object l ;;
  match o with
  | RowList items => ret items
  | _ => fault
  end.

(** [xs.append(s)] on a list of strings. *)
Definition append_str (l : loc) (s : str) : M unit :=
  o <~ get_object l ;;
  match o with
  | StrList items => set_object l (StrList (items ++ [s]))
  | _ => fault
  end.

(** [xs.append(r)] on a list of rows. *)
Definition append_row (l : loc) (r : row) : M unit :=
  o <~ get_object l ;;
  match o with
  | RowList items => set_object l (RowList (items ++ [r]))
  | _ => fault
  end.

(** [stream.write(s)]: over what is there from the position on. *)
Definition stream_write (l : loc) (s : str) : M unit :=
  o <~ get_object l ;;
  match o with
  | StringIO buffer position =>
      set_object l
        (StringIO (firstn position buffer ++ s
                   ++ skipn (position + length s) buffer)
                  (position + length s))
  | _ => fault
  end.

(** [stream.seek(position)] *)
Definition stream_seek (l : loc) (position : nat) : M unit :=
  o <~ get_object l ;;
  match o with
  | StringIO buffer _ => set_object l (StringIO buffer position)
  | _ => fault
  end.

(** [stream.getvalue()]: the whole buffer, wherever the position is. *)
Definition stream_getvalue (l : loc) : M str :=
  o <~ get_object l ;;
  match o with
  | StringIO buffer _ => ret buffer
  | _ => fault
  end.

(** [for x in xs: body] over a list that is a value. *)
Fixpoint for_each {A : Type} (xs : list A) (body : A -> M unit) : M unit :=
  match xs with
  | [] => ret tt
  | x :: rest => _ <~ body x ;; for_each rest body
  end.

(** [for x in xs: body] over a list object: the iterator keeps an index
    and reads the object again at every step, so it sees what the body
    does to the list. *)
Fixpoint for_in_from (fuel : nat) (l : loc) (i : nat)
         (body : str -> M unit) : M unit :=
  match fuel with
  | 0 => fault
  | S fuel' =>
      items <~ read_strs l ;;
      match nth_error items i with
      | None => ret tt
      | Some x => _ <~ body x ;; for_in_from fuel' l (S i) body
      end
  end.

(** The iteration is given one step more than the list has items when
    it starts; a body that makes the list grow would use them up and
    end in [Fault]. *)
Definition for_in (l : loc) (body : str -> M unit) : M unit :=
  items <~ read_strs l ;;
  for_in_from (S (length items)) l 0 body.

(** The loop of [extract_text_from_pdf] with its variable [text]. *)
Fixpoint pages_loop (pages : list page) (text : str) : M str :=
  match pages with
  | [] => ret text
  | pg :: rest =>
      page_text <~ call (extract_text_call pg) ;;
      match page_text with
      | Some t =>
          if Py.truthy t then pages_loop rest (text ++ t ++ [nl])
          else pages_loop rest text
      | None => pages_loop rest text
      end
  end.

(** [extract_text_from_pdf(file_bytes)] *)
Definition extract_text_from_pdf (file_bytes : list byte) : M str :=
  doc <~ call (open_call file_bytes) ;;
  pages_loop (firstn 40 (pdf_pages doc)) [].

(** [get_income_statement_lines(text)]: returns the list [extracted]. *)
Definition get_income_statement_lines (text : str) : M loc :=
  let lines := Py.split nl text in
  extracted <~ new_object (StrList []) ;;
  _ <~ for_each lines
         (fun line =>
            let clean := Py.strip line in
            let lower := Py.lower clean in
            if Re.search (Re.One Re.digit) clean
               && Py.any (fun term => Py.contains term lower) financial_terms
            then append_str extracted clean
            else ret tt) ;;
  ret extracted.

(** [extract_numbers(line)]: returns the list [clean_numbers]. *)
Definition extract_numbers (line : str) : M loc :=
  let numbers := Re.findall number_re line in
  clean_numbers <~ new_object (StrList []) ;;
  _ <~ for_each numbers
         (fun num => append_str clean_numbers (clean_number num)) ;;
  ret clean_numbers.

(** The body of the loop of [extract_financials] over the candidate
    lines: the test reads the list [numbers], the join reads it again. *)
Definition keep_line (data : loc) (line : str) : M unit :=
  let label := normalize_label line in
  numbers <~ extract_numbers line ;;
  if negb (Py.eqb label (lit "UNKNOWN"))
  then
    tested <~ read_strs numbers ;;
    if Py.truthy tested
    then
      joined <~ read_strs numbers ;;
      append_row data (make_row line label joined)
    else ret tt
  else ret tt.

(** [extract_financials] from the extracted text on. *)
Definition build_response (text : str) : M response :=
  lines <~ get_income_statement_lines text ;;
  data <~ new_object (RowList []) ;;
  _ <~ for_in lines (keep_line data) ;;
  rows <~ read_rows data ;;
  let df : DataFrame := rows in
  let df : DataFrame := if df_empty df then [info_row] else df in
  stream <~ new_object (StringIO [] 0) ;;
  csv <~ call (fun s => let (text, s') := to_csv_call df s in
                        (Return text, s')) ;;
  _ <~ stream_write stream csv ;;
  _ <~ stream_seek stream 0 ;;
  value <~ stream_getvalue stream ;;
  ret (StreamingResponse value (lit "text/csv")
         [ (lit "Content-Disposition",
            lit "attachment; filename=financial_extraction.csv") ]).

(** [extract_financials(file)], from the bytes read from the upload. *)
Definition extract_financials (contents : list byte) : M response :=
  text <~ extract_text_from_pdf contents ;;
  build_response text.

(** The result of a function of the bytes, as the outcome of a run. *)
Definition outcome_of {A : Type} (r : result pdf_exn A) : outcome A :=
  match r with
  | Return a => Normal a
  | Raise e => Exception e
  end.

End Program.

Arguments Normal {L A} a.
Arguments Exception {L A} e.
Arguments Fault {L A}.

End Stateful.

(** The objects a run leaves behind: the lists [extracted] and [data],
    one list [clean_numbers] for each candidate line, and the stream. *)
Definition objects_of_run (text csv : str) : list Stateful.object :=
  [ Stateful.StrList (get_income_statement_lines text);
    Stateful.RowList (collect_rows (get_income_statement_lines text)) ]
  ++ map (fun line => Stateful.StrList (extract_numbers line))
         (get_income_statement_lines text)
  ++ [Stateful.StringIO csv 0].

(** The libraries are deterministic when each call answers as a
    function of its arguments, whatever their state. *)
Definition libraries_deterministic
           {L : PdfPlumber} (P : Pandas) (Lib : Libraries L) : Prop :=
  (forall file_bytes s, fst (open_call file_bytes s) = pdf_open file_bytes)
  /\ (forall pg s, fst (extract_text_call pg s) = page_extract_text pg)
  /\ (forall df s, fst (to_csv_call df s) = to_csv df).

(** Libraries that count their calls and answer like the two example
    collaborators. *)
Definition counting_libraries : Libraries plain_text_reader :=
  {| lib_state := nat;
     open_call := fun file_bytes calls =>
       (pdf_open (PdfPlumber := plain_text_reader) file_bytes, S calls);
     extract_text_call := fun pg calls =>
       (page_extract_text (PdfPlumber := plain_text_reader) pg, S calls);
     to_csv_call := fun df calls =>
       (to_csv (Pandas := plain_csv_writer) df, S calls) |}.

(** A world seen from the libraries alone, and a world with other
    objects put in front of its own. *)
Definition detached {L : PdfPlumber} {Lib : Libraries L}
           (w : Stateful.world) : Stateful.world :=
  {| Stateful.heap := []; Stateful.libs := Stateful.libs w |}.

Definition attach {L : PdfPlumber} {Lib : Libraries L}
           (objects : list Stateful.object) (w : Stateful.world)
  : Stateful.world :=
  {| Stateful.heap := objects ++ Stateful.heap w;
     Stateful.libs := Stateful.libs w |}.

(** Libraries that are not deterministic: the CSV writer puts the
    number of calls made so far in front of its text. *)
Definition stamping_libraries : Libraries plain_text_reader :=
  {| lib_state := nat;
     open_call := fun file_bytes calls =>
       (pdf_open (PdfPlumber := plain_text_reader) file_bytes, S calls);
     extract_text_call := fun pg calls =>
       (page_extract_text (PdfPlumber := plain_text_reader) pg, S calls);
     to_csv_call := fun df calls =>
       (repeat "#"%char calls ++ to_csv (Pandas := plain_csv_writer) df,
        S calls) |}.

(* ================================================================== *)
(** * Part II: properties *)
(* ================================================================== *)

(** ** The string primitives *)

Lemma eqb_true_iff (a b : str) : Py.eqb a b = true <-> a = b.
Proof.
  revert b; induction a as [|x a IH]; intros [|y b]; simpl;
    try (split; [discriminate | discriminate]); try tauto.
  rewrite andb_true_iff, Ascii.eqb_eq, IH.
  split; [intros [-> ->]; reflexivity | intros H; inversion H; auto].
Qed.

Lemma eqb_false_iff (a b : str) : Py.eqb a b = false <-> a <> b.
Proof.
  rewrite <- eqb_true_iff. destruct (Py.eqb a b); split; congruence.
Qed.

Lemma startswith_iff (p s : str) :
  Py.startswith p s = true <-> exists t, s = p ++ t.
Proof.
  revert s; induction p as [|a p IH]; intros s; simpl.
  - split; [intros _; exists s; reflexivity | reflexivity].
  - destruct s as [|b s].
    + split; [discriminate | intros [t H]; discriminate].
    + rewrite andb_true_iff, Ascii.eqb_eq, IH. split.
      * intros [-> [t ->]]. exists t; reflexivity.
      * intros [t H]. inversion H; subst. split; [reflexivity | eauto].
Qed.

Lemma contains_iff (sub s : str) :
  Py.contains sub s = true <-> is_substring sub s.
Proof.
  unfold is_substring. induction s as [|c s IH]; simpl.
  - rewrite orb_false_r, startswith_iff. split.
    + intros [t H]. exists [], t. exact H.
    + intros [before [after H]].
      destruct before; simpl in H.
      * exists after. exact H.
      * discriminate.
  - rewrite orb_true_iff, startswith_iff, IH. split.
    + intros [[t H] | [before [after H]]].
      * exists [], t. exact H.
      * exists (c :: before), after. simpl. rewrite H. reflexivity.
    + intros [before [after H]]. destruct before as [|b before]; simpl in H.
      * left. exists after. exact H.
      * right. inversion H; subst. exists before, after. reflexivity.
Qed.

Lemma contains_false_iff (sub s : str) :
  Py.contains sub s = false <-> ~ is_substring sub s.
Proof.
  rewrite <- contains_iff. destruct (Py.contains sub s); split; congruence.
Qed.

(** A loop that appends [f x] for the elements that pass [keep] builds
    the filtered, mapped list, in order. *)
Lemma fold_left_append {A B : Type} (keep : A -> bool) (f : A -> B)
      (l : list A) (acc : list B) :
  fold_left (fun out x => if keep x then out ++ [f x] else out) l acc
  = acc ++ map f (filter keep l).
Proof.
  revert acc; induction l as [|x l IH]; intros acc; simpl.
  - rewrite app_nil_r. reflexivity.
  - rewrite IH. destruct (keep x); simpl.
    + rewrite <- app_assoc. reflexivity.
    + reflexivity.
Qed.

(** [split] cuts at every separator and loses nothing. *)
Lemma split_nonempty (sep : ascii) (s : str) : Py.split sep s <> [].
Proof.
  destruct s as [|c s]; simpl; [discriminate|].
  destruct (Ascii.eqb c sep); [discriminate|].
  destruct (Py.split sep s); discriminate.
Qed.

Lemma join_split (sep : ascii) (s : str) :
  Py.join [sep] (Py.split sep s) = s.
Proof.
  induction s as [|c s IH]; simpl; [reflexivity|].
  destruct (Ascii.eqb c sep) eqn:E.
  - apply Ascii.eqb_eq in E; subst c.
    pose proof (split_nonempty sep s) as NE.
    destruct (Py.split sep s) as [|p ps] eqn:S; [congruence|].
    simpl in *. rewrite IH. reflexivity.
  - pose proof (split_nonempty sep s) as NE.
    destruct (Py.split sep s) as [|p ps] eqn:S; [congruence|].
    rewrite <- IH. destruct ps; reflexivity.
Qed.

Lemma split_no_sep (sep : ascii) (s piece : str) :
  In piece (Py.split sep s) -> ~ In sep piece.
Proof.
  revert piece; induction s as [|c s IH]; simpl; intros piece H.
  - destruct H as [<- | []]. intros [].
  - destruct (Ascii.eqb c sep) eqn:E.
    + destruct H as [<- | H]; [intros [] | auto].
    + apply Ascii.eqb_neq in E.
      destruct (Py.split sep s) as [|p ps] eqn:S.
      * destruct H as [<- | []]. intros [H | []]. congruence.
      * destruct H as [<- | H].
        -- intros [H | H]; [congruence|]. apply (IH p); simpl; auto.
        -- apply IH. simpl; auto.
Qed.

(** Trimming removes white space only: digits stay. *)
Lemma isdecimal_not_space (c : ascii) :
  Py.isdecimal c = true -> Py.isspace c = false.
Proof.
  destruct c as [[] [] [] [] [] [] [] []]; vm_compute; congruence.
Qed.

Lemma lstrip_has_digit (s : str) :
  existsb Py.isdecimal (Py.lstrip s) = existsb Py.isdecimal s.
Proof.
  induction s as [|c s IH]; simpl; [reflexivity|].
  destruct (Py.isspace c) eqn:E; [|reflexivity].
  rewrite IH. destruct (Py.isdecimal c) eqn:D; [|reflexivity].
  apply isdecimal_not_space in D. congruence.
Qed.

Lemma existsb_rev {A : Type} (f : A -> bool) (l : list A) :
  existsb f (rev l) = existsb f l.
Proof.
  induction l as [|x l IH]; simpl; [reflexivity|].
  rewrite existsb_app, IH. simpl. rewrite orb_false_r. apply orb_comm.
Qed.

Lemma strip_has_digit (s : str) : has_digit (Py.strip s) = has_digit s.
Proof.
  unfold has_digit, Py.strip, Py.rstrip.
  rewrite existsb_rev, lstrip_has_digit, existsb_rev, lstrip_has_digit.
  reflexivity.
Qed.

(** ** The regex matcher *)

(** Whatever the matcher leaves is a suffix of its input, and the
    continuation accepted there. *)
Lemma star_bt_suffix (p : Re.charset) (s : str) (k : str -> option str)
      (out : str) :
  Re.star_bt p s k = Some out ->
  exists pre s', s = pre ++ s' /\ k s' = Some out.
Proof.
  revert out. induction s as [|c s IH]; simpl; intros out H.
  - exists [], []. auto.
  - destruct (p c).
    + destruct (Re.star_bt p s k) as [r|] eqn:E.
      * destruct (IH r eq_refl) as (pre & s' & -> & K).
        exists (c :: pre), s'. split; [reflexivity | congruence].
      * exists [], (c :: s). auto.
    + exists [], (c :: s). auto.
Qed.

Lemma bt_suffix (r : Re.regex) :
  forall (s : str) (k : str -> option str) (out : str),
    Re.bt r s k = Some out ->
    exists pre s', s = pre ++ s' /\ k s' = Some out.
Proof.
  induction r as [p | r IH | p | r1 IH1 r2 IH2]; intros s k out H; simpl in H.
  - destruct s as [|c s]; [discriminate|].
    destruct (p c); [|discriminate].
    exists [c], s. auto.
  - destruct (Re.bt r s k) as [x|] eqn:E.
    + apply IH in E. destruct E as (pre & s' & -> & K).
      exists pre, s'. split; [reflexivity | congruence].
    + exists [], s. auto.
  - apply star_bt_suffix in H. exact H.
  - apply IH1 in H. destruct H as (pre1 & s1 & -> & H).
    apply IH2 in H. destruct H as (pre2 & s2 & -> & H).
    exists (pre1 ++ pre2), s2. rewrite app_assoc. auto.
Qed.

(** A match and the text after it make up the text matched against. *)
Lemma match_at_split (r : Re.regex) (s m rest : str) :
  Re.match_at r s = Some (m, rest) -> s = m ++ rest.
Proof.
  unfold Re.match_at. destruct (Re.bt r s Some) as [out|] eqn:E; [|discriminate].
  intros H; inversion H; subst; clear H.
  apply bt_suffix in E. destruct E as (pre & s' & -> & K).
  inversion K; subst. rewrite length_app.
  replace (length pre + length rest - length rest) with (length pre + 0) by lia.
  rewrite firstn_app_2. simpl. rewrite app_nil_r. reflexivity.
Qed.

(** The scan never runs out of steps: any two budgets above the length
    of the text give the same list. *)
Lemma findall_from_enough (r : Re.regex) (fuel1 : nat) :
  forall (fuel2 : nat) (s : str),
    length s < fuel1 -> length s < fuel2 ->
    Re.findall_from fuel1 r s = Re.findall_from fuel2 r s.
Proof.
  induction fuel1 as [|fuel1 IH]; intros fuel2 s H1 H2; [lia|].
  destruct fuel2 as [|fuel2]; [lia|]. simpl.
  destruct (Re.match_at r s) as [[m rest]|] eqn:E.
  - pose proof (match_at_split _ _ E) as S.
    destruct m as [|c m].
    + destruct s as [|c s]; [reflexivity|].
      f_equal. apply IH; simpl in *; lia.
    + f_equal. subst s. simpl in *. rewrite length_app in *.
      apply IH; lia.
  - destruct s as [|c s]; [reflexivity|].
    apply IH; simpl in *; lia.
Qed.

(** The scan of [findall], as an equation without a step budget. *)
Lemma findall_unfold (r : Re.regex) (s : str) :
  Re.findall r s =
  match Re.match_at r s with
  | Some ([], _) =>
      [] :: match s with
            | [] => []
            | _ :: s' => Re.findall r s'
            end
  | Some (m, rest) => m :: Re.findall r rest
  | None =>
      match s with
      | [] => []
      | _ :: s' => Re.findall r s'
      end
  end.
Proof.
  unfold Re.findall at 1. cbn [Re.findall_from].
  destruct (Re.match_at r s) as [[m rest]|] eqn:E.
  - pose proof (match_at_split _ _ E) as S.
    destruct m as [|c m].
    + destruct s as [|c s]; reflexivity.
    + f_equal. unfold Re.findall.
      apply findall_from_enough; subst s; rewrite ?length_app; simpl; lia.
  - destruct s as [|c s]; reflexivity.
Qed.

(** Searching for one character of a set is asking whether the text has
    one. *)
Lemma search_one (p : Re.charset) (s : str) :
  Re.search (Re.One p) s = existsb p s.
Proof.
  induction s as [|c s IH]; simpl; [reflexivity|].
  unfold Re.match_at. simpl. destruct (p c); simpl; [reflexivity | exact IH].
Qed.

(** ** The number pattern is the deterministic lexer *)

Lemma span_split (p : ascii -> bool) (s : str) :
  s = fst (span p s) ++ snd (span p s).
Proof.
  induction s as [|c s IH]; simpl; [reflexivity|].
  destruct (p c); [|reflexivity].
  destruct (span p s) as [run rest]. simpl in *. congruence.
Qed.

Lemma span_all (p : ascii -> bool) (s : str) :
  forallb p (fst (span p s)) = true.
Proof.
  induction s as [|c s IH]; simpl; [reflexivity|].
  destruct (p c) eqn:E; [|reflexivity].
  destruct (span p s) as [run rest]. simpl in *. rewrite E. exact IH.
Qed.

(** The rest of a span does not start with a character of the set. *)
Lemma span_maximal (p : ascii -> bool) (s : str) :
  match snd (span p s) with
  | c :: _ => p c = false
  | [] => True
  end.
Proof.
  induction s as [|c s IH]; simpl; [exact I|].
  destruct (p c) eqn:E; [|simpl; exact E].
  destruct (span p s) as [run rest]. simpl in *. exact IH.
Qed.

Lemma in_body_bracket (c : ascii) :
  Re.bracket [Re.digit; Re.chr ","; Re.chr "."] c = in_body c.
Proof.
  destruct c as [[] [] [] [] [] [] [] []]; reflexivity.
Qed.

(** A greedy star in front of a continuation that always accepts takes
    the longest run. *)
Lemma star_bt_total (p q : ascii -> bool) (k : str -> option str) (s : str) :
  (forall c, p c = q c) ->
  (forall x, k x <> None) ->
  Re.star_bt p s k = k (snd (span q s)).
Proof.
  intros PQ K. induction s as [|c s IH]; simpl; [reflexivity|].
  rewrite <- PQ. destruct (p c); [|reflexivity].
  rewrite IH. destruct (span q s) as [run rest]. simpl.
  destruct (k rest) eqn:E; [reflexivity|]. destruct (K _ E).
Qed.

Lemma tail_bt (s2 : str) :
  Re.bt (Re.Cat (Re.One Re.digit)
          (Re.Cat (Re.Star (Re.bracket [Re.digit; Re.chr ","; Re.chr "."]))
             (Re.Opt (Re.One (Re.chr ")"))))) s2 Some
  = match s2 with
    | d :: s3 =>
        if Py.isdecimal d then
          Some (match snd (span in_body s3) with
                | c :: t => if Ascii.eqb ")" c then t else c :: t
                | [] => []
                end)
        else None
    | [] => None
    end.
Proof.
  cbn [Re.bt]. destruct s2 as [|d s3]; [reflexivity|].
  unfold Re.digit. destruct (Py.isdecimal d); [|reflexivity].
  rewrite (@star_bt_total _ in_body).
  - destruct (snd (span in_body s3)) as [|c t]; [reflexivity|].
    unfold Re.chr. destruct (Ascii.eqb ")" c); reflexivity.
  - apply in_body_bracket.
  - intros x. destruct x as [|c t]; [discriminate|].
    destruct (Re.chr ")" c); discriminate.
Qed.

Lemma bt_number_re (s : str) :
  Re.bt number_re s Some = option_map snd (lex_number s).
Proof.
  unfold number_re.
  set (tail := Re.Cat (Re.One Re.digit) _).
  cbn [Re.bt]. fold (Re.bt tail).
  assert (T : forall s2, Re.bt tail s2 Some = _) by (exact tail_bt).
  clearbody tail. unfold lex_number, Re.chr.
  assert (close : forall d s3,
             Py.isdecimal d = true ->
             forall op : str,
             Some match snd (span in_body s3) with
                  | [] => []
                  | c :: t => if Ascii.eqb ")" c then t else c :: t
                  end
             = option_map snd
                 (let (body, s4) := span in_body s3 in
                  let (cl, s5) :=
                    match s4 with
                    | c :: t => if Ascii.eqb ")" c then ([c], t) else ([], s4)
                    | [] => ([], s4)
                    end in
                  Some (op ++ d :: body ++ cl, s5))).
  { intros d s3 _ op. destruct (span in_body s3) as [body s4]. cbn [snd].
    destruct s4 as [|c t]; [reflexivity|].
    destruct (Ascii.eqb ")" c); reflexivity. }
  destruct s as [|c s1]; [rewrite T; reflexivity|].
  destruct (Ascii.eqb "(" c) eqn:E1.
  - apply Ascii.eqb_eq in E1; subst c.
    change (Ascii.eqb "-" "(") with false. cbv iota.
    rewrite (T ("("%char :: s1)).
    change (Py.isdecimal "(") with false. cbv iota.
    destruct s1 as [|c s2]; [rewrite T; reflexivity|].
    rewrite (T (c :: s2)).
    destruct (Ascii.eqb "-" c) eqn:E2.
    + apply Ascii.eqb_eq in E2; subst c.
      change (Py.isdecimal "-") with false. cbv iota.
      rewrite T.
      destruct s2 as [|d s3]; [reflexivity|].
      destruct (Py.isdecimal d) eqn:D; [|reflexivity].
      apply (close d s3 D (lit "(" ++ lit "-")).
    + destruct (Py.isdecimal c) eqn:D; [|reflexivity].
      apply (close c s2 D (lit "(" ++ [])).
  - rewrite (T (c :: s1)).
    destruct (Ascii.eqb "-" c) eqn:E2.
    + apply Ascii.eqb_eq in E2; subst c.
      change (Py.isdecimal "-") with false. cbv iota.
      rewrite T.
      destruct s1 as [|d s3]; [reflexivity|].
      destruct (Py.isdecimal d) eqn:D; [|reflexivity].
      apply (close d s3 D ([] ++ lit "-")).
    + destruct (Py.isdecimal c) eqn:D; [|reflexivity].
      apply (close c s1 D []).
Qed.

(** What the lexer returns: the parts of the match, the shape, and that
    nothing more could have been taken on the right. *)
Lemma lex_number_parts (s m rest : str) :
  lex_number s = Some (m, rest) ->
  s = m ++ rest /\
  exists op mi d body cl,
    m = op ++ mi ++ d :: body ++ cl /\
    (op = [] \/ op = lit "(") /\
    (mi = [] \/ mi = lit "-") /\
    Py.isdecimal d = true /\
    forallb in_body body = true /\
    (cl = [] \/ cl = lit ")") /\
    match rest with
    | c :: _ => in_body c = false \/ cl = lit ")"
    | [] => True
    end /\
    (cl = [] -> match rest with c :: _ => c <> ")"%char | [] => True end).
Proof.
  unfold lex_number.
  set (op_s1 := match s with
                | c :: t => if Ascii.eqb "(" c then ([c], t) else ([], s)
                | [] => ([], s)
                end).
  assert (Hop : s = fst op_s1 ++ snd op_s1 /\ (fst op_s1 = [] \/ fst op_s1 = lit "(")).
  { subst op_s1. destruct s as [|c t]; [simpl; auto|].
    destruct (Ascii.eqb "(" c) eqn:E; [|simpl; auto].
    apply Ascii.eqb_eq in E; subst c. simpl; auto. }
  destruct op_s1 as [op s1]. cbn [fst snd] in Hop. destruct Hop as [Hs Hop].
  set (mi_s2 := match s1 with
                | c :: t => if Ascii.eqb "-" c then ([c], t) else ([], s1)
                | [] => ([], s1)
                end).
  assert (Hmi : s1 = fst mi_s2 ++ snd mi_s2 /\ (fst mi_s2 = [] \/ fst mi_s2 = lit "-")).
  { subst mi_s2. destruct s1 as [|c t]; [simpl; auto|].
    destruct (Ascii.eqb "-" c) eqn:E; [|simpl; auto].
    apply Ascii.eqb_eq in E; subst c. simpl; auto. }
  destruct mi_s2 as [mi s2]. cbn [fst snd] in Hmi. destruct Hmi as [Hs1 Hmi].
  destruct s2 as [|d s3]; [discriminate|].
  destruct (Py.isdecimal d) eqn:D; [|discriminate].
  pose proof (span_split in_body s3) as Hsp.
  pose proof (span_all in_body s3) as Hall.
  pose proof (span_maximal in_body s3) as Hmax.
  destruct (span in_body s3) as [body s4]. cbn [fst snd] in *.
  set (cl_s5 := match s4 with
                | c :: t => if Ascii.eqb ")" c then ([c], t) else ([], s4)
                | [] => ([], s4)
                end).
  assert (Hcl : s4 = fst cl_s5 ++ snd cl_s5 /\
                ((fst cl_s5 = [] /\ snd cl_s5 = s4 /\
                  match s4 with c :: _ => c <> ")"%char | [] => True end)
                 \/ fst cl_s5 = lit ")")).
  { subst cl_s5. destruct s4 as [|c t]; [simpl; auto|].
    destruct (Ascii.eqb ")" c) eqn:E.
    - apply Ascii.eqb_eq in E; subst c. simpl; auto.
    - apply Ascii.eqb_neq in E. simpl. split; [reflexivity|]. left.
      repeat split; congruence. }
  destruct cl_s5 as [cl s5]. cbn [fst snd] in Hcl. destruct Hcl as [Hs4 Hcl].
  intros H; inversion H; subst m rest; clear H.
  split.
  - rewrite Hs, Hs1, Hsp, Hs4. rewrite <- !app_assoc. simpl.
    rewrite <- !app_assoc. reflexivity.
  - exists op, mi, d, body, cl. repeat split; auto.
    + tauto.
    + destruct Hcl as [(-> & -> & N) | ->]; [|destruct s5; auto].
      destruct s4; auto.
    + intros ->. destruct Hcl as [(_ & -> & N) | C]; [exact N | discriminate].
Qed.

(** The backtracking matcher on the number pattern and the lexer agree:
    the pattern needs no backtracking. *)
Lemma match_at_number_re (s : str) :
  Re.match_at number_re s = lex_number s.
Proof.
  unfold Re.match_at. rewrite bt_number_re.
  destruct (lex_number s) as [[m rest]|] eqn:E; [|reflexivity].
  apply lex_number_parts in E. destruct E as [-> _]. simpl.
  rewrite length_app.
  replace (length m + length rest - length rest) with (length m + 0) by lia.
  rewrite firstn_app_2. simpl. rewrite app_nil_r. reflexivity.
Qed.

(** The lexer succeeds wherever a digit stands. *)
Lemma lex_number_at_digit (c : ascii) (s : str) :
  Py.isdecimal c = true -> lex_number (c :: s) <> None.
Proof.
  intros D. unfold lex_number.
  destruct (Ascii.eqb "(" c) eqn:E1.
  { apply Ascii.eqb_eq in E1; subst c. discriminate D. }
  destruct (Ascii.eqb "-" c) eqn:E2.
  { apply Ascii.eqb_eq in E2; subst c. discriminate D. }
  rewrite D. destruct (span in_body s) as [body s4].
  destruct s4 as [|c' t]; [discriminate|].
  destruct (Ascii.eqb ")" c'); discriminate.
Qed.

(** ** The matches of a line *)

Lemma fold_left_snoc_map {A B : Type} (f : A -> B) (l : list A) (acc : list B) :
  fold_left (fun out x => out ++ [f x]) l acc = acc ++ map f l.
Proof.
  revert acc; induction l as [|x l IH]; intros acc; simpl.
  - rewrite app_nil_r. reflexivity.
  - rewrite IH, <- app_assoc. reflexivity.
Qed.

Lemma extract_numbers_map (line : str) :
  extract_numbers line = map clean_number (Re.findall number_re line).
Proof.
  unfold extract_numbers. apply (fold_left_snoc_map clean_number).
Qed.

Lemma token_shape_nonempty (m : str) : token_shape m -> m <> [].
Proof.
  intros [op mi d body cl _ _ _ _ _] H.
  apply (f_equal (@length _)) in H. rewrite !length_app in H. simpl in H. lia.
Qed.

Lemma lex_number_shape (s m rest : str) :
  lex_number s = Some (m, rest) -> s = m ++ rest /\ token_shape m.
Proof.
  intros H. apply lex_number_parts in H.
  destruct H as (Hs & op & mi & d & body & cl & -> & Hop & Hmi & D & B & Hcl & _).
  split; [exact Hs|]. constructor; assumption.
Qed.

(** The matches of the number pattern cut the line into gaps without
    digits and substrings of the numeric shape, left to right. *)
Lemma findall_number_decomposition (line : str) :
  exists pieces tail,
    line = interleave pieces tail /\
    Re.findall number_re line = map snd pieces /\
    Forall (fun gm => has_digit (fst gm) = false /\ token_shape (snd gm))
           pieces /\
    has_digit tail = false.
Proof.
  remember (length line) as n eqn:Hn. revert line Hn.
  induction n as [n IH] using lt_wf_ind. intros line ->.
  rewrite findall_unfold, match_at_number_re.
  destruct (lex_number line) as [[m rest]|] eqn:E.
  - apply lex_number_shape in E. destruct E as [-> Sh].
    pose proof (token_shape_nonempty Sh) as NE.
    destruct m as [|c m]; [congruence|].
    destruct (IH (length rest)) with (line := rest)
      as (pieces & tail & Hl & Hf & Hp & Ht);
      [simpl; rewrite length_app; lia | reflexivity |].
    exists (([], c :: m) :: pieces), tail. repeat split.
    + simpl. rewrite <- Hl. reflexivity.
    + simpl. rewrite Hf. reflexivity.
    + constructor; [split; [reflexivity | exact Sh] | exact Hp].
    + exact Ht.
  - destruct line as [|c s].
    + exists [], []. repeat split; constructor.
    + assert (D : Py.isdecimal c = false).
      { destruct (Py.isdecimal c) eqn:D; [|reflexivity].
        destruct (@lex_number_at_digit c s D E). }
      destruct (IH (length s)) with (line := s)
        as (pieces & tail & Hl & Hf & Hp & Ht);
        [simpl; lia | reflexivity |].
      destruct pieces as [|[gap m] pieces].
      * exists [], (c :: tail). simpl in *. repeat split.
        -- congruence.
        -- exact Hf.
        -- constructor.
        -- unfold has_digit in *. simpl. rewrite D. exact Ht.
      * exists ((c :: gap, m) :: pieces), tail. simpl in *. repeat split.
        -- congruence.
        -- exact Hf.
        -- inversion Hp as [|? ? [G S] Hp']; subst.
           constructor; [|exact Hp']. split; [|exact S].
           unfold has_digit in *. simpl in *. rewrite D. exact G.
        -- exact Ht.
Qed.

(** ** Cleaning one match *)

Lemma replace_empty (old : ascii) (s : str) :
  Py.replace old [] s = filter (fun c => negb (Ascii.eqb c old)) s.
Proof.
  induction s as [|c s IH]; simpl; [reflexivity|].
  destruct (Ascii.eqb c old); simpl; congruence.
Qed.

Lemma contains_char (c : ascii) (s : str) :
  Py.contains [c] s = existsb (Ascii.eqb c) s.
Proof.
  induction s as [|x s IH]; simpl; [reflexivity|].
  rewrite IH, andb_true_r. reflexivity.
Qed.

(** [clean_number] with its string operations read on characters. *)
Lemma clean_number_filter (num : str) :
  clean_number num =
  let t := strip_commas num in
  if existsb (Ascii.eqb "(") t && existsb (Ascii.eqb ")") t
  then "-"%char :: filter (fun c => negb (Ascii.eqb c ")"))
                     (filter (fun c => negb (Ascii.eqb c "(")) t)
  else t.
Proof.
  unfold clean_number, strip_commas. rewrite !replace_empty.
  change (lit "(") with ["("%char]. change (lit ")") with [")"%char].
  rewrite !contains_char. reflexivity.
Qed.

Lemma has_digit_filter (old : ascii) (s : str) :
  Py.isdecimal old = false ->
  has_digit (filter (fun c => negb (Ascii.eqb c old)) s) = has_digit s.
Proof.
  intros O. unfold has_digit. induction s as [|c s IH]; simpl; [reflexivity|].
  destruct (Ascii.eqb c old) eqn:E; simpl.
  - apply Ascii.eqb_eq in E; subst c. rewrite O. exact IH.
  - rewrite IH. reflexivity.
Qed.

(** Cleaning keeps the digits of a match. *)
Lemma clean_number_has_digit (num : str) :
  has_digit (clean_number num) = has_digit num.
Proof.
  rewrite clean_number_filter. cbv zeta. unfold strip_commas.
  destruct (_ && _).
  - unfold has_digit at 1. simpl. fold (has_digit
      (filter (fun c => negb (Ascii.eqb c ")"))
         (filter (fun c => negb (Ascii.eqb c "("))
            (filter (fun c => negb (Ascii.eqb c ",")) num)))).
    rewrite !has_digit_filter by reflexivity. reflexivity.
  - apply has_digit_filter. reflexivity.
Qed.

Lemma token_shape_has_digit (m : str) : token_shape m -> has_digit m = true.
Proof.
  intros [op mi d body cl _ _ D _ _]. unfold has_digit.
  rewrite !existsb_app. simpl. rewrite D.
  rewrite orb_true_r. simpl. rewrite orb_true_r. reflexivity.
Qed.

Lemma in_body_no_paren (c : ascii) :
  in_body c = true ->
  Ascii.eqb c "(" = false /\ Ascii.eqb c ")" = false /\
  Ascii.eqb "(" c = false /\ Ascii.eqb ")" c = false.
Proof.
  destruct c as [[] [] [] [] [] [] [] []]; vm_compute; intuition congruence.
Qed.

Lemma isdecimal_in_body (c : ascii) :
  Py.isdecimal c = true -> in_body c = true.
Proof.
  unfold in_body. intros ->. reflexivity.
Qed.

Lemma isdecimal_no_comma (c : ascii) :
  Py.isdecimal c = true -> Ascii.eqb c "," = false.
Proof.
  destruct c as [[] [] [] [] [] [] [] []]; vm_compute; congruence.
Qed.

Lemma body_no_paren (body : str) :
  forallb in_body body = true ->
  filter (fun c => negb (Ascii.eqb c "(")) body = body /\
  filter (fun c => negb (Ascii.eqb c ")")) body = body /\
  existsb (Ascii.eqb "(") body = false /\
  existsb (Ascii.eqb ")") body = false.
Proof.
  induction body as [|c body IH]; cbn [forallb filter existsb]; [auto|].
  rewrite andb_true_iff. intros [C B].
  destruct (in_body_no_paren _ C) as (E1 & E2 & E3 & E4).
  destruct (IH B) as (F1 & F2 & X1 & X2).
  rewrite E1, E2, E3, E4. cbn [negb orb]. rewrite F1, F2, X1, X2. auto.
Qed.

Lemma strip_commas_body (body : str) :
  forallb in_body body = true -> forallb in_body (strip_commas body) = true.
Proof.
  unfold strip_commas. induction body as [|c body IH]; simpl; [auto|].
  rewrite andb_true_iff. intros [C B].
  destruct (Ascii.eqb c ","); simpl; [auto|]. rewrite C. auto.
Qed.

(** What cleaning does to a substring of the numeric shape: the commas
    go; when both parentheses are there they go too and a minus sign is
    put in front; otherwise what is there of them stays. *)
Lemma clean_number_shape (op mi : str) (d : ascii) (body cl : str) :
  op = [] \/ op = lit "(" ->
  mi = [] \/ mi = lit "-" ->
  Py.isdecimal d = true ->
  forallb in_body body = true ->
  cl = [] \/ cl = lit ")" ->
  clean_number (op ++ mi ++ d :: body ++ cl) =
  if Py.truthy op && Py.truthy cl
  then lit "-" ++ mi ++ d :: strip_commas body
  else op ++ mi ++ d :: strip_commas body ++ cl.
Proof.
  intros Hop Hmi D B Hcl.
  rewrite clean_number_filter. cbv zeta.
  assert (S : strip_commas (op ++ mi ++ d :: body ++ cl)
              = op ++ mi ++ d :: strip_commas body ++ cl).
  { unfold strip_commas. rewrite !filter_app. simpl.
    rewrite (isdecimal_no_comma _ D). simpl. rewrite filter_app.
    destruct Hop as [-> | ->], Hmi as [-> | ->], Hcl as [-> | ->];
      reflexivity. }
  rewrite S. clear S.
  pose proof (strip_commas_body _ B) as B'.
  destruct (body_no_paren _ B') as (F1 & F2 & X1 & X2).
  destruct (in_body_no_paren _ (isdecimal_in_body _ D)) as (E1 & E2 & E3 & E4).
  set (sb := strip_commas body) in *. clearbody sb. clear B B' body.
  destruct Hop as [-> | ->], Hmi as [-> | ->], Hcl as [-> | ->];
    cbn [lit list_ascii_of_string app Py.truthy andb];
    rewrite ?existsb_app, ?filter_app; cbn [existsb filter];
    rewrite ?existsb_app, ?filter_app; cbn [existsb filter];
    rewrite ?E1, ?E2, ?E3, ?E4, ?X1, ?X2; simpl;
    rewrite ?filter_app, ?E1, ?E2, ?F1, ?F2; simpl;
    rewrite ?filter_app, ?E1, ?E2, ?F1, ?F2; simpl;
    rewrite ?app_nil_r; reflexivity.
Qed.

(** ** The lexer takes the longest substring of the numeric shape *)

Lemma isdecimal_no_sign (c : ascii) :
  Py.isdecimal c = true ->
  Ascii.eqb "(" c = false /\ Ascii.eqb "-" c = false.
Proof.
  destruct c as [[] [] [] [] [] [] [] []]; vm_compute; intuition congruence.
Qed.

Lemma span_app (p : ascii -> bool) (a b : str) :
  forallb p a = true ->
  span p (a ++ b) = (a ++ fst (span p b), snd (span p b)).
Proof.
  induction a as [|c a IH]; cbn [forallb app span].
  - intros _. destruct (span p b); reflexivity.
  - rewrite andb_true_iff. intros [C A]. rewrite C, (IH A). reflexivity.
Qed.

(** The lexer on a text that starts with the optional signs and a
    digit. *)
Lemma lex_number_from_parts (op mi : str) (d : ascii) (s3 : str) :
  op = [] \/ op = lit "(" ->
  mi = [] \/ mi = lit "-" ->
  Py.isdecimal d = true ->
  lex_number (op ++ mi ++ d :: s3) =
  let (body, s4) := span in_body s3 in
  let (cl, s5) :=
    match s4 with
    | c :: t => if Ascii.eqb ")" c then ([c], t) else ([], s4)
    | [] => ([], s4)
    end in
  Some (op ++ mi ++ d :: body ++ cl, s5).
Proof.
  intros Hop Hmi D. destruct (isdecimal_no_sign _ D) as [E1 E2].
  unfold lex_number.
  destruct Hop as [-> | ->], Hmi as [-> | ->];
    cbn [lit list_ascii_of_string app];
    repeat first
      [ rewrite E1 | rewrite E2 | rewrite D
      | progress change (Ascii.eqb "(" "(") with true
      | progress change (Ascii.eqb "(" "-") with false
      | progress change (Ascii.eqb "-" "-") with true
      | progress cbv iota ];
    reflexivity.
Qed.

(** Wherever a substring of the numeric shape starts, the lexer
    succeeds and its match extends that substring. *)
Lemma lex_number_longest (m' rest' : str) :
  token_shape m' ->
  exists ext rest,
    lex_number (m' ++ rest') = Some (m' ++ ext, rest) /\
    rest' = ext ++ rest.
Proof.
  intros [op mi d body cl Hop Hmi D B Hcl].
  replace ((op ++ mi ++ d :: body ++ cl) ++ rest')
    with (op ++ mi ++ d :: body ++ cl ++ rest')
    by (rewrite <- !app_assoc; simpl; rewrite <- !app_assoc; reflexivity).
  rewrite (@lex_number_from_parts op mi d _ Hop Hmi D).
  rewrite (@span_app in_body body _ B).
  destruct Hcl as [-> | ->].
  - cbn [app].
    pose proof (span_split in_body rest') as Sp.
    destruct (span in_body rest') as [x y]. cbn [fst snd] in *.
    destruct y as [|c t].
    + exists x, []. rewrite !app_nil_r in *. split; [|exact Sp].
      do 2 f_equal. rewrite <- !app_assoc. reflexivity.
    + destruct (Ascii.eqb ")" c) eqn:E.
      * exists (x ++ [c]), t. split.
        -- do 2 f_equal. rewrite <- !app_assoc. simpl.
           rewrite <- !app_assoc. reflexivity.
        -- rewrite <- app_assoc. exact Sp.
      * exists x, (c :: t). split; [|exact Sp].
        do 2 f_equal. rewrite <- !app_assoc. simpl.
        rewrite !app_nil_r. reflexivity.
  - cbn [lit list_ascii_of_string app span].
    change (in_body ")") with false. cbv iota. cbn [fst snd].
    change (Ascii.eqb ")" ")") with true. cbv iota.
    exists [], rest'. split; [|reflexivity].
    rewrite !app_nil_r. reflexivity.
Qed.

(** [findall] on the number pattern is the scan of the specification. *)
Lemma findall_scans (line : str) : scans line (Re.findall number_re line).
Proof.
  remember (length line) as n eqn:Hn. revert line Hn.
  induction n as [n IH] using lt_wf_ind. intros line ->.
  rewrite findall_unfold, match_at_number_re.
  destruct (lex_number line) as [[m rest]|] eqn:E.
  - destruct (lex_number_shape _ E) as [-> Sh].
    pose proof (token_shape_nonempty Sh) as NE.
    destruct m as [|c m]; [congruence|].
    apply scans_take.
    + exact Sh.
    + intros m' rest' Eq Sh'.
      destruct (@lex_number_longest m' rest' Sh') as (ext & r & L & _).
      rewrite <- Eq, E in L. inversion L as [[M R]].
      rewrite M, length_app. lia.
    + apply (IH (length rest)); [simpl; rewrite length_app; lia | reflexivity].
  - destruct line as [|c s]; [constructor|].
    apply scans_skip.
    + intros m rest Eq Sh.
      destruct (@lex_number_longest m rest Sh) as (ext & r & L & _).
      rewrite <- Eq, E in L. discriminate.
    + apply (IH (length s)); [simpl; lia | reflexivity].
Qed.

(** The scan of the specification has one result. *)
Lemma scans_findall (line : str) (ms : list str) :
  scans line ms -> ms = Re.findall number_re line.
Proof.
  induction 1 as [| c s ms No _ IH | m rest ms Sh Long _ IH].
  - reflexivity.
  - rewrite findall_unfold, match_at_number_re.
    destruct (lex_number (c :: s)) as [[m rest]|] eqn:E; [|exact IH].
    destruct (lex_number_shape _ E) as [Eq Sh].
    destruct (No _ _ Eq Sh).
  - rewrite findall_unfold, match_at_number_re.
    destruct (@lex_number_longest m rest Sh) as (ext & r & L & R).
    assert (X : ext = []).
    { destruct (lex_number_shape _ L) as [Eq Sh'].
      specialize (Long _ _ Eq Sh'). rewrite length_app in Long.
      destruct ext; [reflexivity | simpl in Long; lia]. }
    subst ext. rewrite app_nil_r in L. simpl in R. subst r.
    rewrite L. pose proof (token_shape_nonempty Sh) as NE.
    destruct m as [|c m]; [congruence|]. rewrite IH. reflexivity.
Qed.

(** ** The label normalizer *)

(** The chain of tests of [normalize_label] is the rule table read top
    to bottom. *)
Lemma normalize_label_first_match (line : str) :
  normalize_label line = first_match label_rules (Py.lower line).
Proof.
  unfold normalize_label, label_rules, first_match, rule_matches.
  cbn [existsb fst snd]. cbv zeta.
  rewrite !orb_false_r, !orb_assoc. reflexivity.
Qed.

Lemma rule_matches_iff (lower : str) (rule : list str * str) :
  rule_matches lower rule = true <->
  exists phrase, In phrase (fst rule) /\ is_substring phrase lower.
Proof.
  unfold rule_matches. rewrite existsb_exists.
  split; intros [phrase [I C]]; exists phrase; split; auto;
    apply contains_iff; exact C.
Qed.

Lemma rule_matches_false_iff (lower : str) (rule : list str * str) :
  rule_matches lower rule = false <->
  forall phrase, In phrase (fst rule) -> ~ is_substring phrase lower.
Proof.
  split.
  - intros F phrase I S.
    assert (T : rule_matches lower rule = true)
      by (apply rule_matches_iff; eauto).
    congruence.
  - intros N. destruct (rule_matches lower rule) eqn:E; [|reflexivity].
    apply rule_matches_iff in E. destruct E as [phrase [I S]].
    destruct (N phrase I S).
Qed.

(** The first match of a table: the rule it comes from matches and no
    rule before it does; or no rule matches at all. *)
Lemma first_match_cases (rules : list (list str * str)) (lower : str) :
  (exists before rule after,
      rules = before ++ rule :: after /\
      first_match rules lower = snd rule /\
      rule_matches lower rule = true /\
      forall r, In r before -> rule_matches lower r = false)
  \/ (first_match rules lower = Unrecognized /\
      forall r, In r rules -> rule_matches lower r = false).
Proof.
  induction rules as [|rule rules IH]; simpl.
  - right. split; [reflexivity | intros r []].
  - destruct (rule_matches lower rule) eqn:E.
    + left. exists [], rule, rules. repeat split; auto. intros r [].
    + destruct IH as [(before & r0 & after & -> & F & M & B) | [F N]].
      * left. exists (rule :: before), r0, after. repeat split; auto.
        intros r [<- | I]; auto.
      * right. split; [exact F|]. intros r [<- | I]; auto.
Qed.

(** ** The candidate line filter *)

Lemma filter_map_swap {A B : Type} (f : A -> B) (p : B -> bool) (l : list A) :
  map f (filter (fun x => p (f x)) l) = filter p (map f l).
Proof.
  induction l as [|x l IH]; simpl; [reflexivity|].
  destruct (p (f x)); simpl; congruence.
Qed.

Lemma filter_filter {A : Type} (p q : A -> bool) (l : list A) :
  filter q (filter p l) = filter (fun x => p x && q x) l.
Proof.
  induction l as [|x l IH]; simpl; [reflexivity|].
  destruct (p x); simpl; [destruct (q x)|]; congruence.
Qed.

Lemma fold_left_ext {A B : Type} (f g : B -> A -> B) (l : list A) (b : B) :
  (forall acc x, f acc x = g acc x) -> fold_left f l b = fold_left g l b.
Proof.
  intros E. revert b; induction l as [|x l IH]; intros b; simpl;
    [reflexivity | rewrite E; apply IH].
Qed.

(** The loop of [get_income_statement_lines] keeps, in order, the
    trimmed lines that pass the filter's predicate. *)
Lemma get_income_statement_lines_filter (text : str) :
  get_income_statement_lines text
  = filter is_candidate (map Py.strip (Py.split nl text)).
Proof.
  unfold get_income_statement_lines. cbv zeta.
  rewrite <- (filter_map_swap Py.strip is_candidate).
  rewrite <- (app_nil_l (map _ _)).
  rewrite <- (fold_left_append (fun line => is_candidate (Py.strip line))
                               Py.strip).
  apply fold_left_ext. intros acc line.
  rewrite search_one. reflexivity.
Qed.

Lemma is_candidate_iff (clean : str) :
  is_candidate clean = true <->
  (exists d, In d clean /\ Py.isdecimal d = true) /\
  (exists term, In term financial_terms /\
                is_substring term (Py.lower clean)).
Proof.
  unfold is_candidate, has_digit, has_keyword.
  rewrite andb_true_iff, !existsb_exists.
  split; intros [D [term [I C]]]; (split; [exact D|]);
    exists term; (split; [exact I|]); apply contains_iff; exact C.
Qed.

(** ** The orchestrator *)

(** The loop of [extract_financials] keeps, in order, one row for each
    line that qualifies. *)
Lemma collect_rows_filter (lines : list str) :
  collect_rows lines
  = map (fun line => make_row line (normalize_label line)
                              (extract_numbers line))
        (filter qualifies lines).
Proof.
  unfold collect_rows.
  rewrite <- (app_nil_l (map _ _)).
  rewrite <- (fold_left_append qualifies
                (fun line => make_row line (normalize_label line)
                                      (extract_numbers line))).
  reflexivity.
Qed.

Lemma raw_lines_of_rows (lines : list str) :
  map raw_line (collect_rows lines) = filter qualifies lines.
Proof.
  rewrite collect_rows_filter, map_map. simpl. apply map_id.
Qed.

Lemma in_collect_rows (lines : list str) (r : row) :
  In r (collect_rows lines) <->
  exists line,
    In line lines /\ qualifies line = true /\
    r = make_row line (normalize_label line) (extract_numbers line).
Proof.
  rewrite collect_rows_filter, in_map_iff. split.
  - intros [line [<- I]]. apply filter_In in I. destruct I as [I Q].
    exists line. auto.
  - intros [line (I & Q & ->)]. exists line. split; [reflexivity|].
    apply filter_In. auto.
Qed.

Lemma qualifies_iff (line : str) :
  qualifies line = true <->
  normalize_label line <> Unrecognized /\ extract_numbers line <> [].
Proof.
  unfold qualifies. rewrite andb_true_iff, negb_true_iff, eqb_false_iff.
  destruct (extract_numbers line); simpl; split; intros [A B]; split;
    auto; congruence.
Qed.

Lemma build_frame_cases (text : str) :
  (collect_rows (get_income_statement_lines text) = [] /\
   build_frame text = [info_row])
  \/ (collect_rows (get_income_statement_lines text) <> [] /\
      build_frame text = collect_rows (get_income_statement_lines text)).
Proof.
  unfold build_frame, df_empty. cbv zeta.
  destruct (collect_rows (get_income_statement_lines text)); simpl.
  - left. auto.
  - right. split; [discriminate | reflexivity].
Qed.

(** Every token of a line has a digit, so it is not empty. *)
Lemma extract_numbers_tokens (line token : str) :
  In token (extract_numbers line) -> has_digit token = true.
Proof.
  rewrite extract_numbers_map, in_map_iff. intros [m [<- I]].
  rewrite clean_number_has_digit.
  destruct (findall_number_decomposition line)
    as (pieces & tail & _ & F & P & _).
  rewrite F in I. apply in_map_iff in I. destruct I as [[gap m'] [<- I]].
  rewrite Forall_forall in P. destruct (P _ I) as [_ Sh].
  apply token_shape_has_digit. exact Sh.
Qed.

Lemma join_nonempty (sep : str) (parts : list str) :
  (exists p, In p parts /\ p <> []) -> Py.join sep parts <> [].
Proof.
  induction parts as [|p parts IH]; intros [q [I N]]; [destruct I|].
  simpl. destruct parts as [|p' parts].
  - destruct I as [<- | []]. exact N.
  - intros E. apply app_eq_nil in E. destruct E as [E1 E2].
    apply app_eq_nil in E2. destruct E2 as [_ E2].
    destruct I as [<- | I]; [congruence|].
    apply IH; [exists q; auto | exact E2].
Qed.

(** A line with a digit has a numeric token. *)
Lemma extract_numbers_nonempty (line : str) :
  has_digit line = true -> extract_numbers line <> [].
Proof.
  intros D E. rewrite extract_numbers_map in E.
  destruct (findall_number_decomposition line)
    as (pieces & tail & Hl & F & P & T).
  rewrite F in E. destruct pieces; [|discriminate].
  simpl in Hl. subst tail. congruence.
Qed.

Section PipelineFacts.

Context {L : PdfPlumber} {P : Pandas}.

(** When no page raises, the loop returns the text it started with
    followed by what each page adds, in page order. *)
Lemma pages_loop_return (pages : list page) :
  forall text : str,
    (forall pg, In pg pages -> exists ot, page_extract_text pg = Return ot) ->
    pages_loop pages text
    = Return (text ++ concat (map contribution_of pages)).
Proof.
  induction pages as [|pg pages IH]; intros text OK; simpl.
  - rewrite app_nil_r. reflexivity.
  - destruct (OK pg (or_introl eq_refl)) as [ot E].
    unfold contribution_of at 1. rewrite E. simpl.
    assert (OK' : forall q, In q pages ->
                            exists ot, page_extract_text q = Return ot)
      by (intros q I; apply OK; right; exact I).
    destruct ot as [[|c t]|]; simpl; rewrite (IH _ OK');
      rewrite <- ?app_assoc; simpl; rewrite <- ?app_assoc; reflexivity.
Qed.

(** The loop raises only what a page raises. *)
Lemma pages_loop_raise (pages : list page) :
  forall (text : str) (e : pdf_exn),
    pages_loop pages text = Raise e ->
    exists pg, In pg pages /\ page_extract_text pg = Raise e.
Proof.
  induction pages as [|pg pages IH]; intros text e H; simpl in H.
  - discriminate.
  - destruct (page_extract_text pg) as [ot|e'] eqn:E; simpl in H.
    + assert (X : exists text', pages_loop pages text' = Raise e).
      { destruct ot as [[|c t]|]; simpl in H; eauto. }
      destruct X as [text' X]. destruct (IH _ _ X) as [q [I Q]].
      exists q. split; [right; exact I | exact Q].
    + inversion H; subst. exists pg. split; [left; reflexivity | exact E].
Qed.

(** The handler fails exactly when the text extraction fails, with
    the same exception; otherwise it returns a response with status
    200 that carries the CSV of the frame. *)
Lemma extract_financials_cases (contents : list byte) :
  match extract_text_from_pdf contents with
  | Raise e => extract_financials contents = Raise e
  | Return text =>
      extract_financials contents
      = Return
          (StreamingResponse (to_csv (build_frame text)) (lit "text/csv")
             [ (lit "Content-Disposition",
                lit "attachment; filename=financial_extraction.csv") ])
  end.
Proof.
  unfold extract_financials.
  destruct (extract_text_from_pdf contents); reflexivity.
Qed.

End PipelineFacts.

(** ** The handler and its objects *)

Lemma put_length (l : nat) (o : Stateful.object) (h : list Stateful.object) :
  length (Stateful.put l o h) = length h.
Proof.
  revert l; induction h as [|x h IH]; intros [|l]; simpl; auto.
Qed.

Lemma nth_error_put_same (l : nat) (o : Stateful.object)
      (h : list Stateful.object) :
  l < length h -> nth_error (Stateful.put l o h) l = Some o.
Proof.
  revert l; induction h as [|x h IH]; intros [|l]; simpl; intros H;
    try lia; [reflexivity | apply IH; lia].
Qed.

Lemma nth_error_put_other (l l' : nat) (o : Stateful.object)
      (h : list Stateful.object) :
  l <> l' -> nth_error (Stateful.put l o h) l' = nth_error h l'.
Proof.
  revert l l'; induction h as [|x h IH]; intros [|l] [|l']; simpl;
    intros H; try reflexivity; try congruence.
  apply IH. congruence.
Qed.

Lemma put_put (l : nat) (o o' : Stateful.object) (h : list Stateful.object) :
  Stateful.put l o (Stateful.put l o' h) = Stateful.put l o h.
Proof.
  revert l; induction h as [|x h IH]; intros [|l]; simpl; congruence.
Qed.

Lemma put_same (l : nat) (o : Stateful.object) (h : list Stateful.object) :
  nth_error h l = Some o -> Stateful.put l o h = h.
Proof.
  revert l; induction h as [|x h IH]; intros [|l]; simpl; intros H;
    try reflexivity.
  - congruence.
  - rewrite (IH l H). reflexivity.
Qed.

Lemma put_app_left (l : nat) (o : Stateful.object)
      (h t : list Stateful.object) :
  l < length h -> Stateful.put l o (h ++ t) = Stateful.put l o h ++ t.
Proof.
  revert l; induction h as [|x h IH]; intros [|l]; simpl; intros H;
    try lia; [reflexivity | rewrite IH by lia; reflexivity].
Qed.

Lemma put_last (o o' : Stateful.object) (h : list Stateful.object) :
  Stateful.put (length h) o (h ++ [o']) = h ++ [o].
Proof. induction h as [|x h IH]; simpl; congruence. Qed.

Lemma nth_error_last (o : Stateful.object) (h : list Stateful.object) :
  nth_error (h ++ [o]) (length h) = Some o.
Proof. induction h as [|x h IH]; simpl; auto. Qed.

Lemma nth_error_in_range {A : Type} (h : list A) (l : nat) (x : A) :
  nth_error h l = Some x -> l < length h.
Proof. intros H. apply nth_error_Some. congruence. Qed.

Lemma filter_true {A : Type} (l : list A) : filter (fun _ => true) l = l.
Proof. induction l as [|x l IH]; simpl; congruence. Qed.

Lemma skipn_none {A : Type} (n : nat) : skipn n (@nil A) = [].
Proof. destruct n; reflexivity. Qed.

Lemma collect_rows_cons (line : str) (lines : list str) :
  collect_rows (line :: lines)
  = (if qualifies line
     then [make_row line (normalize_label line) (extract_numbers line)]
     else [])
    ++ collect_rows lines.
Proof.
  rewrite !collect_rows_filter. cbn [filter].
  destruct (qualifies line); reflexivity.
Qed.

Section StatefulFacts.

Context {L : PdfPlumber} {Lib : Libraries L}.

Lemma read_strs_run (w : Stateful.world) (l : nat) (items : list str) :
  nth_error (Stateful.heap w) l = Some (Stateful.StrList items) ->
  Stateful.read_strs l w = (Stateful.Normal items, w).
Proof.
  intros H. unfold Stateful.read_strs, Stateful.st_bind, Stateful.get_object.
  rewrite H. reflexivity.
Qed.

Lemma read_rows_run (w : Stateful.world) (l : nat) (items : list row) :
  nth_error (Stateful.heap w) l = Some (Stateful.RowList items) ->
  Stateful.read_rows l w = (Stateful.Normal items, w).
Proof.
  intros H. unfold Stateful.read_rows, Stateful.st_bind, Stateful.get_object.
  rewrite H. reflexivity.
Qed.

Lemma append_str_run (w : Stateful.world) (l : nat) (items : list str)
      (s : str) :
  nth_error (Stateful.heap w) l = Some (Stateful.StrList items) ->
  Stateful.append_str l s w
  = (Stateful.Normal tt,
     {| Stateful.heap :=
          Stateful.put l (Stateful.StrList (items ++ [s])) (Stateful.heap w);
        Stateful.libs := Stateful.libs w |}).
Proof.
  intros H. unfold Stateful.append_str, Stateful.st_bind, Stateful.get_object.
  rewrite H. unfold Stateful.set_object.
  apply nth_error_in_range in H. apply Nat.ltb_lt in H. rewrite H.
  reflexivity.
Qed.

Lemma append_row_run (w : Stateful.world) (l : nat) (items : list row)
      (r : row) :
  nth_error (Stateful.heap w) l = Some (Stateful.RowList items) ->
  Stateful.append_row l r w
  = (Stateful.Normal tt,
     {| Stateful.heap :=
          Stateful.put l (Stateful.RowList (items ++ [r])) (Stateful.heap w);
        Stateful.libs := Stateful.libs w |}).
Proof.
  intros H. unfold Stateful.append_row, Stateful.st_bind, Stateful.get_object.
  rewrite H. unfold Stateful.set_object.
  apply nth_error_in_range in H. apply Nat.ltb_lt in H. rewrite H.
  reflexivity.
Qed.

(** A loop that appends to one list of strings changes that list only. *)
Lemma for_each_append_run {A : Type} (keep : A -> bool) (f : A -> str)
      (l : nat) (body : A -> Stateful.M unit) (xs : list A) :
  (forall x, body x = if keep x then Stateful.append_str l (f x)
                      else Stateful.ret tt) ->
  forall (w : Stateful.world) (items : list str),
    nth_error (Stateful.heap w) l = Some (Stateful.StrList items) ->
    Stateful.for_each xs body w
    = (Stateful.Normal tt,
       {| Stateful.heap :=
            Stateful.put l
              (Stateful.StrList (items ++ map f (filter keep xs)))
              (Stateful.heap w);
          Stateful.libs := Stateful.libs w |}).
Proof.
  intros B. induction xs as [|x xs IH]; intros w items H.
  - cbn [Stateful.for_each filter map]. rewrite app_nil_r, (@put_same l _ _ H).
    destruct w; reflexivity.
  - cbn [Stateful.for_each filter]. unfold Stateful.st_bind at 1.
    rewrite B. destruct (keep x).
    + rewrite (@append_str_run w l items (f x) H).
      rewrite IH with (items := items ++ [f x]).
      * cbn [Stateful.heap Stateful.libs map].
        rewrite put_put, <- app_assoc. reflexivity.
      * cbn [Stateful.heap]. apply nth_error_put_same.
        apply (@nth_error_in_range _ _ _ _ H).
    + unfold Stateful.ret at 1. apply IH. exact H.
Qed.

(** [get_income_statement_lines] allocates one list, the candidate
    lines, and returns its location. *)
Lemma get_income_statement_lines_run (text : str) (w : Stateful.world) :
  Stateful.get_income_statement_lines text w
  = (Stateful.Normal (length (Stateful.heap w)),
     {| Stateful.heap :=
          Stateful.heap w
          ++ [Stateful.StrList (get_income_statement_lines text)];
        Stateful.libs := Stateful.libs w |}).
Proof.
  unfold Stateful.get_income_statement_lines. cbv zeta.
  unfold Stateful.st_bind at 1. unfold Stateful.new_object at 1.
  unfold Stateful.st_bind at 1.
  erewrite for_each_append_run
    with (keep := fun line => is_candidate (Py.strip line)) (f := Py.strip)
         (l := length (Stateful.heap w)) (items := []);
    [ | intros x; rewrite search_one; reflexivity
      | cbn [Stateful.heap]; apply nth_error_last ].
  unfold Stateful.ret. cbn [Stateful.heap Stateful.libs app].
  rewrite put_last, filter_map_swap, get_income_statement_lines_filter.
  reflexivity.
Qed.

(** [extract_numbers] allocates one list, the tokens, and returns its
    location. *)
Lemma extract_numbers_run (line : str) (w : Stateful.world) :
  Stateful.extract_numbers line w
  = (Stateful.Normal (length (Stateful.heap w)),
     {| Stateful.heap :=
          Stateful.heap w ++ [Stateful.StrList (extract_numbers line)];
        Stateful.libs := Stateful.libs w |}).
Proof.
  unfold Stateful.extract_numbers. cbv zeta.
  unfold Stateful.st_bind at 1. unfold Stateful.new_object at 1.
  unfold Stateful.st_bind at 1.
  erewrite for_each_append_run
    with (keep := fun _ => true) (f := clean_number)
         (l := length (Stateful.heap w)) (items := []);
    [ | intros x; reflexivity
      | cbn [Stateful.heap]; apply nth_error_last ].
  unfold Stateful.ret. cbn [Stateful.heap Stateful.libs app].
  rewrite put_last, filter_true, extract_numbers_map. reflexivity.
Qed.

(** One turn of the loop of [extract_financials]: a new list of tokens,
    and the row of the line appended to [data] when the line
    qualifies; nothing else changes. *)
Lemma keep_line_run (data : nat) (line : str) (w : Stateful.world)
      (acc : list row) :
  nth_error (Stateful.heap w) data = Some (Stateful.RowList acc) ->
  Stateful.keep_line data line w
  = (Stateful.Normal tt,
     {| Stateful.heap :=
          Stateful.put data
            (Stateful.RowList (acc ++ collect_rows [line]))
            (Stateful.heap w)
          ++ [Stateful.StrList (extract_numbers line)];
        Stateful.libs := Stateful.libs w |}).
Proof.
  intros H. pose proof (@nth_error_in_range _ _ _ _ H) as R.
  unfold Stateful.keep_line. cbv zeta. unfold Stateful.st_bind at 1.
  rewrite extract_numbers_run.
  set (w1 := {| Stateful.heap := Stateful.heap w
                                 ++ [Stateful.StrList (extract_numbers line)];
                Stateful.libs := Stateful.libs w |}).
  assert (T : nth_error (Stateful.heap w1) (length (Stateful.heap w))
              = Some (Stateful.StrList (extract_numbers line)))
    by apply nth_error_last.
  assert (D : nth_error (Stateful.heap w1) data
              = Some (Stateful.RowList acc))
    by (cbn [w1 Stateful.heap]; rewrite nth_error_app1 by exact R; exact H).
  rewrite collect_rows_cons. change (collect_rows []) with (@nil row).
  rewrite app_nil_r. unfold qualifies, Unrecognized.
  destruct (negb (Py.eqb (normalize_label line) (lit "UNKNOWN"))).
  - unfold Stateful.st_bind at 1. rewrite (@read_strs_run w1 _ _ T).
    destruct (Py.truthy (extract_numbers line)); cbn [andb].
    + unfold Stateful.st_bind at 1. rewrite (@read_strs_run w1 _ _ T).
      rewrite (@append_row_run w1 data acc _ D).
      cbn [w1 Stateful.heap Stateful.libs].
      rewrite put_app_left by exact R. reflexivity.
    + unfold Stateful.ret. rewrite app_nil_r, (@put_same data _ _ H).
      reflexivity.
  - cbn [andb]. unfold Stateful.ret. rewrite app_nil_r, (@put_same data _ _ H).
    reflexivity.
Qed.

Lemma collect_rows_app (l1 l2 : list str) :
  collect_rows (l1 ++ l2) = collect_rows l1 ++ collect_rows l2.
Proof. rewrite !collect_rows_filter, filter_app, map_app. reflexivity. Qed.

(** The loop over the list of candidate lines, from an index on: it
    changes the list [data] and nothing else that was there, and
    leaves one list of tokens for each line. *)
Lemma for_in_from_run (fuel : nat) :
  forall (i : nat) (w : Stateful.world) (lines data : nat)
         (items : list str) (acc : list row),
    nth_error (Stateful.heap w) lines = Some (Stateful.StrList items) ->
    nth_error (Stateful.heap w) data = Some (Stateful.RowList acc) ->
    length items - i < fuel ->
    Stateful.for_in_from fuel lines i (Stateful.keep_line data) w
    = (Stateful.Normal tt,
       {| Stateful.heap :=
            Stateful.put data
              (Stateful.RowList (acc ++ collect_rows (skipn i items)))
              (Stateful.heap w)
            ++ map (fun line => Stateful.StrList (extract_numbers line))
                   (skipn i items);
          Stateful.libs := Stateful.libs w |}).
Proof.
  induction fuel as [|fuel IH]; intros i w lines data items acc Hl Hd F;
    [lia|].
  assert (NE : lines <> data) by (intros ->; congruence).
  pose proof (@nth_error_in_range _ _ _ _ Hl) as Rl.
  pose proof (@nth_error_in_range _ _ _ _ Hd) as Rd.
  cbn [Stateful.for_in_from]. unfold Stateful.st_bind at 1.
  rewrite (@read_strs_run w lines items Hl).
  destruct (nth_error items i) as [line|] eqn:N.
  - assert (Sk : skipn i items = line :: skipn (S i) items).
    { clear - N. revert i N. induction items as [|x items IH];
        intros [|i] N; simpl in *; try discriminate.
      - congruence.
      - apply IH. exact N. }
    unfold Stateful.st_bind at 1. rewrite (@keep_line_run data line w acc Hd).
    rewrite (IH (S i) _ lines data items (acc ++ collect_rows [line])).
    + cbn [Stateful.heap Stateful.libs]. rewrite Sk. cbn [map].
      rewrite put_app_left by (rewrite put_length; exact Rd).
      rewrite put_put, <- !app_assoc.
      change (line :: skipn (S i) items) with ([line] ++ skipn (S i) items).
      rewrite collect_rows_app. reflexivity.
    + cbn [Stateful.heap]. rewrite nth_error_app1
        by (rewrite put_length; exact Rl).
      rewrite nth_error_put_other by congruence. exact Hl.
    + cbn [Stateful.heap]. rewrite nth_error_app1
        by (rewrite put_length; exact Rd).
      apply nth_error_put_same. exact Rd.
    + apply nth_error_in_range in N. lia.
  - apply nth_error_None in N. rewrite (skipn_all2 _ N).
    change (collect_rows []) with (@nil row). cbn [map].
    rewrite !app_nil_r, (@put_same data _ _ Hd).
    unfold Stateful.ret. destruct w; reflexivity.
Qed.

(** From the text on: a response that carries what [to_csv] returned
    for the frame; the objects that were there are as they were, the
    objects of the run stand behind them. *)
Lemma build_response_run (text : str) (w : Stateful.world) :
  Stateful.build_response text w
  = (Stateful.Normal
       (StreamingResponse
          (fst (to_csv_call (build_frame text) (Stateful.libs w)))
          (lit "text/csv")
          [ (lit "Content-Disposition",
             lit "attachment; filename=financial_extraction.csv") ]),
     {| Stateful.heap :=
          Stateful.heap w
          ++ objects_of_run text
               (fst (to_csv_call (build_frame text) (Stateful.libs w)));
        Stateful.libs :=
          snd (to_csv_call (build_frame text) (Stateful.libs w)) |}).
Proof.
  unfold Stateful.build_response.
  unfold Stateful.st_bind at 1. rewrite get_income_statement_lines_run.
  set (cand := get_income_statement_lines text).
  set (h := Stateful.heap w).
  unfold Stateful.st_bind at 1. unfold Stateful.new_object at 1.
  cbn [Stateful.heap Stateful.libs].
  set (w2 := {| Stateful.heap := (h ++ [Stateful.StrList cand])
                                 ++ [Stateful.RowList []];
                Stateful.libs := Stateful.libs w |}).
  assert (Hl : nth_error (Stateful.heap w2) (length h)
               = Some (Stateful.StrList cand)).
  { cbn [w2 Stateful.heap]. rewrite nth_error_app1
      by (rewrite length_app; simpl; lia).
    apply nth_error_last. }
  assert (Hd : nth_error (Stateful.heap w2) (length (h ++ [Stateful.StrList cand]))
               = Some (Stateful.RowList []))
    by apply nth_error_last.
  unfold Stateful.st_bind at 1. unfold Stateful.for_in.
  unfold Stateful.st_bind at 1. rewrite (@read_strs_run w2 _ _ Hl).
  rewrite (@for_in_from_run _ 0 w2 _ _ cand [] Hl Hd) by lia.
  cbn [skipn app w2 Stateful.heap Stateful.libs].
  rewrite put_last.
  set (h3 := ((h ++ [Stateful.StrList cand])
              ++ [Stateful.RowList (collect_rows cand)])
             ++ map (fun line => Stateful.StrList (extract_numbers line)) cand).
  unfold Stateful.st_bind at 1.
  erewrite read_rows_run with (items := collect_rows cand).
  2:{ cbn [Stateful.heap]. unfold h3. rewrite nth_error_app1
        by (rewrite !length_app; simpl; lia).
      apply nth_error_last. }
  cbv beta iota zeta.
  unfold Stateful.st_bind at 1. unfold Stateful.new_object at 1.
  cbn [Stateful.heap Stateful.libs].
  unfold Stateful.st_bind at 1. unfold Stateful.call at 1.
  cbn [Stateful.heap Stateful.libs].
  match goal with
  | |- context [to_csv_call ?d (Stateful.libs w)] =>
      lazymatch d with
      | build_frame text => fail
      | _ => change d with (build_frame text)
      end
  end.
  destruct (to_csv_call (build_frame text) (Stateful.libs w)) as [csv s].
  cbn [fst snd]. cbv beta iota zeta.
  assert (St : forall (b : str) (p : nat),
             nth_error (h3 ++ [Stateful.StringIO b p]) (length h3)
             = Some (Stateful.StringIO b p))
    by (intros; apply nth_error_last).
  assert (Lt : forall o, (length h3 <? length (h3 ++ [o])) = true)
    by (intros; apply Nat.ltb_lt; rewrite length_app; simpl; lia).
  unfold Stateful.st_bind at 1.
  unfold Stateful.stream_write, Stateful.st_bind at 1, Stateful.get_object.
  cbn [Stateful.heap]. rewrite St.
  unfold Stateful.set_object. cbn [Stateful.heap Stateful.libs].
  rewrite Lt, put_last. cbn [firstn app Nat.add]. rewrite skipn_none, app_nil_r.
  unfold Stateful.st_bind at 1.
  unfold Stateful.stream_seek, Stateful.st_bind at 1, Stateful.get_object.
  cbn [Stateful.heap]. rewrite St.
  unfold Stateful.set_object. cbn [Stateful.heap Stateful.libs].
  rewrite Lt, put_last.
  unfold Stateful.st_bind at 1.
  unfold Stateful.stream_getvalue, Stateful.st_bind at 1, Stateful.get_object.
  cbn [Stateful.heap]. rewrite St.
  unfold Stateful.ret. unfold objects_of_run, h3. fold cand.
  rewrite <- !app_assoc. reflexivity.
Qed.

End StatefulFacts.

Section RunFacts.

Context {L : PdfPlumber} {P : Pandas} {Lib : Libraries L}.

(** The page loop uses the libraries and nothing else: the objects of
    the world are handed through as they are. *)
Lemma pages_loop_run (pages : list page) :
  forall (text : str) (w : Stateful.world) (h : list Stateful.object),
    Stateful.pages_loop pages text
      {| Stateful.heap := h; Stateful.libs := Stateful.libs w |}
    = (fst (Stateful.pages_loop pages text w),
       {| Stateful.heap := h;
          Stateful.libs :=
            Stateful.libs (snd (Stateful.pages_loop pages text w)) |})
    /\ fst (Stateful.pages_loop pages text w) <> Stateful.Fault.
Proof.
  induction pages as [|pg pages IH]; intros text w h.
  - cbn. split; [reflexivity | discriminate].
  - cbn [Stateful.pages_loop]. unfold Stateful.st_bind, Stateful.call.
    cbn [Stateful.heap Stateful.libs].
    destruct (extract_text_call pg (Stateful.libs w)) as [[ot|e] s].
    + set (w1 := {| Stateful.heap := Stateful.heap w; Stateful.libs := s |}).
      change s with (Stateful.libs w1) at 1.
      destruct ot as [t|]; [destruct (Py.truthy t)|]; apply IH.
    + cbn. split; [reflexivity | discriminate].
Qed.

Lemma extract_text_from_pdf_run (contents : list byte) (w : Stateful.world)
      (h : list Stateful.object) :
  Stateful.extract_text_from_pdf contents
    {| Stateful.heap := h; Stateful.libs := Stateful.libs w |}
  = (fst (Stateful.extract_text_from_pdf contents w),
     {| Stateful.heap := h;
        Stateful.libs :=
          Stateful.libs (snd (Stateful.extract_text_from_pdf contents w)) |})
  /\ fst (Stateful.extract_text_from_pdf contents w) <> Stateful.Fault.
Proof.
  unfold Stateful.extract_text_from_pdf, Stateful.st_bind, Stateful.call.
  cbn [Stateful.heap Stateful.libs].
  destruct (open_call contents (Stateful.libs w)) as [[doc|e] s].
  - set (w1 := {| Stateful.heap := Stateful.heap w; Stateful.libs := s |}).
    change s with (Stateful.libs w1) at 1. apply pages_loop_run.
  - cbn. split; [reflexivity | discriminate].
Qed.

(** Extracting the text leaves the objects of the world as they are. *)
Lemma extract_text_from_pdf_heap (contents : list byte) (w : Stateful.world) :
  Stateful.heap (snd (Stateful.extract_text_from_pdf contents w))
  = Stateful.heap w.
Proof.
  destruct (extract_text_from_pdf_run contents w (Stateful.heap w)) as [E _].
  destruct w as [h s]. cbn [Stateful.heap Stateful.libs] in *.
  rewrite E. reflexivity.
Qed.

(** The whole run, from what text extraction gives. *)
Lemma extract_financials_run (contents : list byte) (w : Stateful.world) :
  Stateful.extract_financials contents w
  = match Stateful.extract_text_from_pdf contents w with
    | (Stateful.Normal text, w1) =>
        let csv := fst (to_csv_call (build_frame text) (Stateful.libs w1)) in
        (Stateful.Normal
           (StreamingResponse csv (lit "text/csv")
              [ (lit "Content-Disposition",
                 lit "attachment; filename=financial_extraction.csv") ]),
         {| Stateful.heap := Stateful.heap w1 ++ objects_of_run text csv;
            Stateful.libs :=
              snd (to_csv_call (build_frame text) (Stateful.libs w1)) |})
    | (Stateful.Exception e, w1) => (Stateful.Exception e, w1)
    | (Stateful.Fault, w1) => (Stateful.Fault, w1)
    end.
Proof.
  unfold Stateful.extract_financials, Stateful.st_bind.
  destruct (Stateful.extract_text_from_pdf contents w) as [[text|e|] w1];
    [apply build_response_run | reflexivity | reflexivity].
Qed.

(** With deterministic libraries the stateful text extraction answers
    as the function of the bytes does. *)
Lemma pages_loop_outcome (D : libraries_deterministic P Lib)
      (pages : list page) :
  forall (text : str) (w : Stateful.world),
    fst (Stateful.pages_loop pages text w)
    = Stateful.outcome_of (pages_loop pages text).
Proof.
  destruct D as (_ & D & _).
  induction pages as [|pg pages IH]; intros text w.
  - reflexivity.
  - cbn [Stateful.pages_loop pages_loop].
    unfold Stateful.st_bind, Stateful.call, bind.
    rewrite <- (D pg (Stateful.libs w)).
    destruct (extract_text_call pg (Stateful.libs w)) as [[ot|e] s];
      cbn [fst].
    + destruct ot as [t|]; [destruct (Py.truthy t)|]; apply IH.
    + reflexivity.
Qed.

Lemma extract_text_from_pdf_outcome (D : libraries_deterministic P Lib)
      (contents : list byte) (w : Stateful.world) :
  fst (Stateful.extract_text_from_pdf contents w)
  = Stateful.outcome_of (extract_text_from_pdf contents).
Proof.
  unfold Stateful.extract_text_from_pdf, extract_text_from_pdf.
  unfold Stateful.st_bind, Stateful.call, bind.
  rewrite <- (proj1 D contents (Stateful.libs w)).
  destruct (open_call contents (Stateful.libs w)) as [[doc|e] s]; cbn [fst].
  - apply pages_loop_outcome. exact D.
  - reflexivity.
Qed.

Lemma extract_financials_outcome (D : libraries_deterministic P Lib)
      (contents : list byte) (w : Stateful.world) :
  fst (Stateful.extract_financials contents w)
  = Stateful.outcome_of (extract_financials contents).
Proof.
  rewrite extract_financials_run. unfold extract_financials, bind.
  pose proof (extract_text_from_pdf_outcome D contents w) as E.
  destruct (Stateful.extract_text_from_pdf contents w) as [[text|e|] w1];
    destruct (extract_text_from_pdf contents) as [text'|e'];
    cbn [fst Stateful.outcome_of] in *; try discriminate.
  - injection E as <-. rewrite (proj2 (proj2 D)). reflexivity.
  - injection E as <-. reflexivity.
Qed.

End RunFacts.

(* ================================================================== *)
(** * Part III: the claims of the specification *)
(* ================================================================== *)

(** ** Label Normalizer *)

(** C1.  For every line, [normalize_label] is the first match of the
    seven phrase sets taken in the order Revenue, Cost of Revenue, Gross
    Profit, Operating Income, Operating Expenses, Net Income, EPS: the
    label returned belongs to a phrase set that the lowercased line
    matches while no earlier phrase set matches it, and the sentinel is
    returned only when no phrase set matches.  In particular a line
    whose lowercased form contains both "net sales" and "net income" is
    labelled Revenue, not Net Income. *)
Theorem normalize_label_priority (line : str) :
  normalize_label line = first_match label_rules (Py.lower line)
  /\ map snd label_rules
     = [ lit "Revenue"; lit "Cost of Revenue"; lit "Gross Profit";
         lit "Operating Income"; lit "Operating Expenses";
         lit "Net Income"; lit "EPS" ]
  /\ ((exists before phrases label after,
          label_rules = before ++ (phrases, label) :: after /\
          normalize_label line = label /\
          (exists phrase,
              In phrase phrases /\ is_substring phrase (Py.lower line)) /\
          (forall rule phrase,
              In rule before -> In phrase (fst rule) ->
              ~ is_substring phrase (Py.lower line)))
      \/ (normalize_label line = Unrecognized /\
          forall rule phrase,
            In rule label_rules -> In phrase (fst rule) ->
            ~ is_substring phrase (Py.lower line)))
  /\ (is_substring (lit "net sales") (Py.lower line) ->
      is_substring (lit "net income") (Py.lower line) ->
      normalize_label line = lit "Revenue" /\
      normalize_label line <> lit "Net Income").
Proof.
  split; [apply normalize_label_first_match|].
  split; [reflexivity|].
  split.
  - rewrite normalize_label_first_match.
    destruct (first_match_cases label_rules (Py.lower line))
      as [(before & [phrases label] & after & E & F & M & B) | [F N]].
    + left. exists before, phrases, label, after.
      split; [exact E|]. split; [exact F|]. split.
      * apply rule_matches_iff in M. exact M.
      * intros rule phrase I J.
        apply (proj1 (rule_matches_false_iff _ _) (B rule I)). exact J.
    + right. split; [exact F|]. intros rule phrase I J.
      apply (proj1 (rule_matches_false_iff _ _) (N rule I)). exact J.
  - intros S _. apply contains_iff in S.
    assert (R : normalize_label line = lit "Revenue").
    { unfold normalize_label. cbv zeta. rewrite S, orb_true_r. reflexivity. }
    split; [exact R|]. rewrite R. discriminate.
Qed.

(** The line of the specification's priority test. *)
Lemma normalize_label_priority_witness :
  is_substring (lit "net sales")
               (Py.lower (lit "Net sales and net income both rose"))
  /\ is_substring (lit "net income")
                  (Py.lower (lit "Net sales and net income both rose"))
  /\ normalize_label (lit "Net sales and net income both rose")
     = lit "Revenue"
  /\ normalize_label (lit "Net sales and net income both rose")
     <> lit "Net Income".
Proof.
  assert (S1 : is_substring (lit "net sales")
                 (Py.lower (lit "Net sales and net income both rose")))
    by (apply contains_iff; vm_compute; reflexivity).
  assert (S2 : is_substring (lit "net income")
                 (Py.lower (lit "Net sales and net income both rose")))
    by (apply contains_iff; vm_compute; reflexivity).
  split; [exact S1|]. split; [exact S2|].
  exact (proj2 (proj2 (proj2
           (normalize_label_priority
              (lit "Net sales and net income both rose")))) S1 S2).
Defined.

(** ** Numeric Token Parser *)

Lemma in_interleave (pieces : list (str * str)) (tail gap m : str) :
  In (gap, m) pieces -> is_substring m (interleave pieces tail).
Proof.
  induction pieces as [|[g n] pieces IH]; intros I; [destruct I|].
  destruct I as [E | I].
  - inversion E; subst. exists gap, (interleave pieces tail). reflexivity.
  - destruct (IH I) as (a & b & E). simpl. rewrite E.
    exists (g ++ n ++ a), b. rewrite <- !app_assoc. reflexivity.
Qed.

Lemma has_digit_app (a b : str) :
  has_digit (a ++ b) = has_digit a || has_digit b.
Proof. apply existsb_app. Qed.

(** A line without digits has no substring of the numeric shape. *)
Lemma no_digit_no_shape (line : str) :
  has_digit line = false ->
  forall sub, is_substring sub line -> ~ token_shape sub.
Proof.
  intros D sub (a & b & ->) Sh. apply token_shape_has_digit in Sh.
  rewrite !has_digit_app, Sh, orb_true_r in D. discriminate.
Qed.

(** C2.  For every line, [extract_numbers] returns the cleaned matches
    of the left-to-right scan for substrings made of an optional opening
    parenthesis, an optional minus sign, a digit, then digits, commas
    and periods, then an optional closing parenthesis: the matches lie
    in the line in the order returned, they do not overlap, no digit of
    the line is outside them, and each is the longest such substring at
    its place.  Cleaning a match removes its commas and, when it has
    both parentheses, removes them and puts a minus sign in front, so
    "(1,234)" gives "-1234".  A line with no such substring gives the
    empty list, and that is the case exactly when the line has no
    digit.  "Total net sales 1,200 900" gives "1200", "900". *)
Theorem extract_numbers_scan (line : str) :
  (exists pieces tail,
      line = interleave pieces tail /\
      Forall (fun gm => has_digit (fst gm) = false /\ token_shape (snd gm))
             pieces /\
      has_digit tail = false /\
      scans line (map snd pieces) /\
      extract_numbers line = map (fun gm => clean_number (snd gm)) pieces)
  /\ (forall ms, scans line ms -> extract_numbers line = map clean_number ms)
  /\ (forall op mi d body cl,
         op = [] \/ op = lit "(" ->
         mi = [] \/ mi = lit "-" ->
         Py.isdecimal d = true ->
         forallb in_body body = true ->
         cl = [] \/ cl = lit ")" ->
         clean_number (op ++ mi ++ d :: body ++ cl) =
         if Py.truthy op && Py.truthy cl
         then lit "-" ++ mi ++ d :: strip_commas body
         else op ++ mi ++ d :: strip_commas body ++ cl)
  /\ ((forall sub, is_substring sub line -> ~ token_shape sub) ->
      extract_numbers line = [])
  /\ (extract_numbers line = [] <-> has_digit line = false)
  /\ extract_numbers (lit "(1,234)") = [lit "-1234"]
  /\ extract_numbers (lit "Cost of sales (1,234)") = [lit "-1234"]
  /\ extract_numbers (lit "Total net sales 1,200 900")
     = [lit "1200"; lit "900"].
Proof.
  destruct (findall_number_decomposition line)
    as (pieces & tail & Hl & F & P & T).
  assert (Empty : (forall sub, is_substring sub line -> ~ token_shape sub) ->
                  extract_numbers line = []).
  { intros No. rewrite extract_numbers_map, F.
    destruct pieces as [|[gap m] pieces]; [reflexivity|].
    exfalso. apply (No m).
    + rewrite Hl. apply (@in_interleave _ tail gap m). left. reflexivity.
    + inversion P as [|? ? [_ Sh] _]; subst. exact Sh. }
  split; [|split; [|split; [|split; [|split]]]].
  - exists pieces, tail. repeat split; auto.
    + rewrite <- F. apply findall_scans.
    + rewrite extract_numbers_map, F, map_map. reflexivity.
  - intros ms S. rewrite extract_numbers_map.
    rewrite (scans_findall S). reflexivity.
  - intros op mi d body cl. apply clean_number_shape.
  - exact Empty.
  - split.
    + intros E. destruct (has_digit line) eqn:D; [|reflexivity].
      destruct (extract_numbers_nonempty line D E).
    + intros D. apply Empty. apply no_digit_no_shape. exact D.
  - repeat split; vm_compute; reflexivity.
Qed.

(** A line without numbers gives no token. *)
Lemma extract_numbers_scan_witness :
  extract_numbers (lit "Revenue grew strongly") = [].
Proof.
  apply (proj1 (proj2 (proj2 (proj2
           (extract_numbers_scan (lit "Revenue grew strongly")))))).
  apply no_digit_no_shape. vm_compute. reflexivity.
Defined.

(** C10.  An opening parenthesis without its closing one stays in the
    token: the line "Net sales (1,23" gives the single token "(123",
    which keeps the parenthesis, has no minus sign put in front and is
    not a signed decimal numeral; the row emitted for that line carries
    it as its value. *)
Theorem unmatched_parenthesis_token :
  exists line token,
    is_substring (lit "(1,23") line
    /\ extract_numbers line = [token]
    /\ token = lit "(123"
    /\ Py.contains (lit "(") token = true
    /\ Py.startswith (lit "-") token = false
    /\ is_signed_decimal token = false
    /\ build_frame line
       = [ {| raw_line := line; standard_label := lit "Revenue";
              values_found := token |} ]
    /\ extract_numbers (lit "(123") = [token].
Proof.
  exists (lit "Net sales (1,23"), (lit "(123").
  split; [apply contains_iff; vm_compute; reflexivity|].
  repeat split; vm_compute; reflexivity.
Qed.

(** ** Candidate Line Filter *)

(** C3.  For every text, [get_income_statement_lines] returns exactly,
    in order, the trimmed lines of the text that have a digit and whose
    lowercased form contains one of the nine keywords: a line is kept
    if and only if both hold; a line without a digit is never in the
    result, trimmed or not; the lines are the pieces of the text between
    line feeds; the function returns for every text. *)
Theorem candidate_lines_filter (text : str) :
  get_income_statement_lines text
  = filter is_candidate (map Py.strip (Py.split nl text))
  /\ Py.join [nl] (Py.split nl text) = text
  /\ financial_terms
     = [ lit "revenue"; lit "sales"; lit "cost"; lit "gross";
         lit "operating income"; lit "operating expenses";
         lit "net income"; lit "earnings per share"; lit "eps" ]
  /\ (forall clean,
         In clean (get_income_statement_lines text) <->
         In clean (map Py.strip (Py.split nl text)) /\
         (exists d, In d clean /\ Py.isdecimal d = true) /\
         (exists term, In term financial_terms /\
                       is_substring term (Py.lower clean)))
  /\ (forall line,
         has_digit line = false ->
         ~ In line (get_income_statement_lines text) /\
         ~ In (Py.strip line) (get_income_statement_lines text))
  /\ ~ In [] (get_income_statement_lines text).
Proof.
  split; [apply get_income_statement_lines_filter|].
  split; [apply join_split|].
  split; [reflexivity|].
  assert (K : forall clean,
             In clean (get_income_statement_lines text) <->
             In clean (map Py.strip (Py.split nl text)) /\
             is_candidate clean = true).
  { intros clean. rewrite get_income_statement_lines_filter.
    apply filter_In. }
  assert (N : forall line,
             has_digit line = false ->
             ~ In line (get_income_statement_lines text)).
  { intros line D I. apply K in I. destruct I as [_ C].
    unfold is_candidate in C. rewrite D in C. discriminate. }
  split; [|split].
  - intros clean. rewrite K, is_candidate_iff. reflexivity.
  - intros line D. split; [apply N; exact D|].
    apply N. rewrite strip_has_digit. exact D.
  - apply N. reflexivity.
Qed.

(** A line without a digit among lines that are kept. *)
Lemma candidate_lines_filter_witness :
  has_digit (lit "Revenue grew strongly") = false
  /\ ~ In (lit "Revenue grew strongly")
          (get_income_statement_lines
             (lit "Revenue grew strongly" ++ [nl] ++
              lit "  Total net sales 1,200 900  "))
  /\ get_income_statement_lines
       (lit "Revenue grew strongly" ++ [nl] ++
        lit "  Total net sales 1,200 900  ")
     = [lit "Total net sales 1,200 900"].
Proof.
  split; [reflexivity|]. split.
  - apply (proj1 (proj1 (proj2 (proj2 (proj2 (proj2
             (candidate_lines_filter
                (lit "Revenue grew strongly" ++ [nl] ++
                 lit "  Total net sales 1,200 900  "))))))
             (lit "Revenue grew strongly") eq_refl)).
  - vm_compute. reflexivity.
Defined.

(** ** Extraction Orchestrator *)

(** The label of a line is the sentinel or one of the seven canonical
    labels. *)
Lemma normalize_label_range (line : str) :
  normalize_label line = Unrecognized \/
  In (normalize_label line) (map snd label_rules).
Proof.
  rewrite normalize_label_first_match.
  destruct (first_match_cases label_rules (Py.lower line))
    as [(before & rule & after & E & F & _) | [F _]]; [right | left; exact F].
  rewrite F, E. apply in_map. apply in_or_app. right. left. reflexivity.
Qed.

(** C5.  Every row the loop of the orchestrator emits has a label that
    is not the sentinel (it is one of the seven canonical labels, the
    label of its line) and a non-empty list of numeric tokens, joined
    into a non-empty value text; a candidate line whose label is the
    sentinel or that has no token gives no row; the frame written out
    is made of these rows, or is the single informational row when
    there are none. *)
Theorem emitted_rows_invariant (text : str) :
  (forall r,
      In r (collect_rows (get_income_statement_lines text)) ->
      standard_label r <> Unrecognized
      /\ In (standard_label r) (map snd label_rules)
      /\ standard_label r = normalize_label (raw_line r)
      /\ extract_numbers (raw_line r) <> []
      /\ values_found r = Py.join (lit ", ") (extract_numbers (raw_line r))
      /\ values_found r <> []
      /\ In (raw_line r) (get_income_statement_lines text))
  /\ (forall line,
         normalize_label line = Unrecognized \/ extract_numbers line = [] ->
         forall r,
           In r (collect_rows (get_income_statement_lines text)) ->
           raw_line r <> line)
  /\ (forall r,
         In r (build_frame text) ->
         In r (collect_rows (get_income_statement_lines text))
         \/ (r = info_row /\
             collect_rows (get_income_statement_lines text) = [])).
Proof.
  split; [|split].
  - intros r I. apply in_collect_rows in I.
    destruct I as (line & I & Q & ->). cbn [make_row raw_line standard_label
                                             values_found].
    apply qualifies_iff in Q. destruct Q as [U N].
    split; [exact U|].
    split; [destruct (normalize_label_range line); [contradiction | assumption]|].
    split; [reflexivity|]. split; [exact N|]. split; [reflexivity|].
    split; [|exact I].
    apply join_nonempty.
    destruct (extract_numbers line) as [|token tokens] eqn:E; [congruence|].
    exists token. split; [left; reflexivity|].
    assert (D : has_digit token = true)
      by (apply (@extract_numbers_tokens line); rewrite E; left; reflexivity).
    intros ->. discriminate D.
  - intros line Skip r I <-. apply in_collect_rows in I.
    destruct I as (line & _ & Q & ->). cbn [make_row raw_line] in Skip.
    apply qualifies_iff in Q. tauto.
  - intros r I.
    destruct (build_frame_cases text) as [[E F] | [_ F]]; rewrite F in I.
    + right. destruct I as [<- | []]. auto.
    + left. exact I.
Qed.

(** The row of the specification's scenario. *)
Lemma emitted_rows_invariant_witness :
  In (make_row (lit "Total net sales 1,200 900") (lit "Revenue")
               [lit "1200"; lit "900"])
     (collect_rows (get_income_statement_lines
                      (lit "Total net sales 1,200 900")))
  /\ lit "Revenue" <> Unrecognized
  /\ extract_numbers (lit "Total net sales 1,200 900") <> [].
Proof.
  assert (I : In (make_row (lit "Total net sales 1,200 900") (lit "Revenue")
                           [lit "1200"; lit "900"])
                 (collect_rows (get_income_statement_lines
                                  (lit "Total net sales 1,200 900"))))
    by (vm_compute; left; reflexivity).
  split; [exact I|].
  destruct (proj1 (emitted_rows_invariant (lit "Total net sales 1,200 900"))
                  _ I) as (U & _ & _ & N & _).
  split; [exact U | exact N].
Defined.

(** C7.  The rows come in the order of their source lines, one row for
    every occurrence of a qualifying line: their raw lines are the
    trimmed lines of the text that pass the filter and qualify, as they
    stand in the text.  Within a row the values are the cleaned matches
    of its line joined in the order in which the matches lie in the
    line. *)
Theorem rows_keep_line_order (text : str) :
  map raw_line (collect_rows (get_income_statement_lines text))
  = filter (fun line => is_candidate line && qualifies line)
           (map Py.strip (Py.split nl text))
  /\ (forall r,
         In r (collect_rows (get_income_statement_lines text)) ->
         exists pieces tail,
           raw_line r = interleave pieces tail /\
           scans (raw_line r) (map snd pieces) /\
           values_found r
           = Py.join (lit ", ")
                     (map (fun gm => clean_number (snd gm)) pieces))
  /\ (build_frame text = collect_rows (get_income_statement_lines text)
      \/ (collect_rows (get_income_statement_lines text) = [] /\
          build_frame text = [info_row])).
Proof.
  split; [|split].
  - rewrite raw_lines_of_rows, get_income_statement_lines_filter.
    apply filter_filter.
  - intros r I. apply in_collect_rows in I.
    destruct I as (line & _ & _ & ->). cbn [make_row raw_line values_found].
    destruct (findall_number_decomposition line)
      as (pieces & tail & Hl & F & _ & _).
    exists pieces, tail. split; [exact Hl|]. split.
    + rewrite <- F. apply findall_scans.
    + rewrite extract_numbers_map, F, map_map. reflexivity.
  - destruct (build_frame_cases text) as [[E F] | [_ F]]; auto.
Qed.

(** Two equal lines around another one: three rows, in that order. *)
Lemma rows_keep_line_order_witness :
  map raw_line
      (collect_rows (get_income_statement_lines
                       (lit "EPS 1.2" ++ [nl] ++ lit "Net sales 7 (8)"
                        ++ [nl] ++ lit "EPS 1.2")))
  = [lit "EPS 1.2"; lit "Net sales 7 (8)"; lit "EPS 1.2"]
  /\ map values_found
         (collect_rows (get_income_statement_lines
                          (lit "EPS 1.2" ++ [nl] ++ lit "Net sales 7 (8)"
                           ++ [nl] ++ lit "EPS 1.2")))
     = [lit "1.2"; lit "7, -8"; lit "1.2"].
Proof.
  split.
  - rewrite (proj1 (rows_keep_line_order
                      (lit "EPS 1.2" ++ [nl] ++ lit "Net sales 7 (8)"
                       ++ [nl] ++ lit "EPS 1.2"))).
    vm_compute. reflexivity.
  - vm_compute. reflexivity.
Defined.

(** ** The request handler *)

Lemma filter_none {A : Type} (p : A -> bool) (l : list A) :
  (forall x, In x l -> p x = false) -> filter p l = [].
Proof.
  induction l as [|x l IH]; intros N; simpl; [reflexivity|].
  rewrite (N x (or_introl eq_refl)). apply IH. intros y I. apply N.
  right. exact I.
Qed.

Section Handler.

Context {L : PdfPlumber} {P : Pandas}.

(** C6.  When no candidate line of the document text yields a row
    (each has the sentinel label or no token), the frame is the single
    informational row, with the raw line "No income statement data
    detected in first 40 pages.", the label "INFO" and no values; the
    handler returns it as the CSV of a response with status 200: a
    result, not a failure. *)
Theorem no_data_fallback (contents : list byte) (text : str) :
  extract_text_from_pdf contents = Return text ->
  (forall line,
      In line (get_income_statement_lines text) ->
      normalize_label line = Unrecognized \/ extract_numbers line = []) ->
  build_frame text = [info_row]
  /\ raw_line info_row
     = lit "No income statement data detected in first 40 pages."
  /\ standard_label info_row = lit "INFO"
  /\ values_found info_row = []
  /\ ~ In (standard_label info_row) (Unrecognized :: map snd label_rules)
  /\ (exists r,
         extract_financials contents = Return r /\
         status_code r = 200 /\
         body r = to_csv [info_row])
  /\ http_status (extract_financials contents) = 200.
Proof.
  intros T None.
  assert (F : build_frame text = [info_row]).
  { destruct (build_frame_cases text) as [[_ F] | [N _]]; [exact F|].
    exfalso. apply N. rewrite collect_rows_filter.
    rewrite filter_none; [reflexivity|]. intros line I.
    destruct (qualifies line) eqn:Q; [|reflexivity].
    apply qualifies_iff in Q. destruct (None line I); tauto. }
  pose proof (extract_financials_cases contents) as C.
  rewrite T, F in C.
  split; [exact F|]. repeat (split; [reflexivity|]).
  split.
  { vm_compute. intuition discriminate. }
  split.
  - eexists. split; [exact C|]. split; reflexivity.
  - rewrite C. reflexivity.
Qed.

(** C8.  When the bytes open as a document and none of its first 40
    pages raises, the text returned is what these pages add, in page
    order: the text of a page followed by a line feed, nothing for a
    page with no or empty text.  At most 40 pages are read, and
    nothing after them matters: a document with the same first 40
    pages gives the same text and the same response. *)
Theorem first_forty_pages (file_bytes : list byte) (doc : pdf) :
  pdf_open file_bytes = Return doc ->
  (forall pg,
      In pg (firstn 40 (pdf_pages doc)) ->
      exists page_text, page_extract_text pg = Return page_text) ->
  extract_text_from_pdf file_bytes
  = Return (concat (map contribution_of (firstn 40 (pdf_pages doc))))
  /\ length (firstn 40 (pdf_pages doc)) <= 40
  /\ (forall pg,
         (page_extract_text pg = Return None \/
          page_extract_text pg = Return (Some []) ->
          contribution_of pg = [])
         /\ (forall t,
                t <> [] -> page_extract_text pg = Return (Some t) ->
                contribution_of pg = t ++ [nl]))
  /\ (forall other doc',
         pdf_open other = Return doc' ->
         firstn 40 (pdf_pages doc') = firstn 40 (pdf_pages doc) ->
         extract_text_from_pdf other = extract_text_from_pdf file_bytes /\
         extract_financials other = extract_financials file_bytes).
Proof.
  intros O OK.
  split; [|split; [|split]].
  - unfold extract_text_from_pdf. rewrite O. cbn [bind].
    rewrite (pages_loop_return _ [] OK). reflexivity.
  - apply firstn_le_length.
  - intros pg. unfold contribution_of. split.
    + intros [-> | ->]; reflexivity.
    + intros t N ->. destruct t; [congruence | reflexivity].
  - intros other doc' O' Same.
    assert (E : extract_text_from_pdf other
                = extract_text_from_pdf file_bytes).
    { unfold extract_text_from_pdf. rewrite O, O'. cbn [bind].
      rewrite Same. reflexivity. }
    split; [exact E|]. unfold extract_financials. rewrite E. reflexivity.
Qed.

(** C4 (amended).  When the bytes do not open as a document, the
    exception of the decoder leaves the handler as it is: the handler
    builds no response for it, and the client is answered with status
    500.  Decoding is the only step that can fail: the handler raises
    exactly when the text extraction raises, which happens only when
    opening raises or one of the first 40 pages raises; when the text
    extraction returns, the handler returns a response with status
    200. *)
Theorem decoding_is_the_only_failure (contents : list byte) :
  (forall e,
      pdf_open contents = Raise e ->
      extract_text_from_pdf contents = Raise e /\
      extract_financials contents = Raise e /\
      http_status (extract_financials contents) = 500)
  /\ (forall e,
         extract_financials contents = Raise e <->
         extract_text_from_pdf contents = Raise e)
  /\ (forall e,
         extract_text_from_pdf contents = Raise e ->
         pdf_open contents = Raise e
         \/ exists doc pg,
             pdf_open contents = Return doc /\
             In pg (firstn 40 (pdf_pages doc)) /\
             page_extract_text pg = Raise e)
  /\ (forall text,
         extract_text_from_pdf contents = Return text ->
         exists r,
           extract_financials contents = Return r /\
           status_code r = 200 /\
           body r = to_csv (build_frame text) /\
           http_status (extract_financials contents) = 200).
Proof.
  pose proof (extract_financials_cases contents) as C.
  split; [|split; [|split]].
  - intros e O.
    assert (T : extract_text_from_pdf contents = Raise e)
      by (unfold extract_text_from_pdf; rewrite O; reflexivity).
    rewrite T in C. rewrite C. auto.
  - intros e. destruct (extract_text_from_pdf contents) as [text|e'];
      rewrite C; split; intros H; congruence.
  - intros e T. unfold extract_text_from_pdf in T.
    destruct (pdf_open contents) as [doc|e'] eqn:O; cbn [bind] in T.
    + right. apply pages_loop_raise in T. destruct T as [pg [I R]].
      exists doc, pg. auto.
    + left. congruence.
  - intros text T. rewrite T in C. rewrite C.
    eexists. split; [reflexivity|]. repeat split.
Qed.

End Handler.

(** ** The runs of the handler and the state of the process *)

Section Runs.

Context {L : PdfPlumber} {P : Pandas} {Lib : Libraries L}.

(** C9.  A run of the handler in a process that already holds objects
    (those left by earlier runs among them) neither reads nor writes
    any of them: it goes as it would with no object at all and the
    same state of the libraries, and puts its own objects behind the
    ones that were there; these are the lists [extracted] and [data],
    one list of tokens per candidate line and the stream, and the CSV
    in the stream is the body of the response.  A run never uses a
    location that holds no object of the right kind.  So a run can
    depend on an earlier one through the libraries only: when
    pdfplumber and pandas answer as functions of their arguments, the
    outcome of a run is a function of the bytes; a second run, started
    in the state the first one left, gives the same response with the
    same CSV body (or raises the same exception); and so does a run on
    other bytes that have the same extracted text. *)
Theorem runs_are_independent (contents : list byte) :
  (forall w : Stateful.world,
      Stateful.extract_financials contents w
      = (fst (Stateful.extract_financials contents (detached w)),
         attach (Stateful.heap w)
                (snd (Stateful.extract_financials contents (detached w)))))
  /\ (forall w : Stateful.world,
         match fst (Stateful.extract_financials contents w) with
         | Stateful.Normal r =>
             exists text,
               fst (Stateful.extract_text_from_pdf contents w)
               = Stateful.Normal text
               /\ Stateful.heap (snd (Stateful.extract_financials contents w))
                  = Stateful.heap w ++ objects_of_run text (body r)
         | Stateful.Exception e =>
             Stateful.heap (snd (Stateful.extract_financials contents w))
             = Stateful.heap w
         | Stateful.Fault => False
         end)
  /\ (libraries_deterministic P Lib ->
      (forall w : Stateful.world,
          fst (Stateful.extract_financials contents w)
          = Stateful.outcome_of (extract_financials contents))
      /\ (forall w : Stateful.world,
             fst (Stateful.extract_financials contents
                    (snd (Stateful.extract_financials contents w)))
             = fst (Stateful.extract_financials contents w))
      /\ (forall (contents' : list byte) (w w' : Stateful.world),
             extract_text_from_pdf contents'
             = extract_text_from_pdf contents ->
             fst (Stateful.extract_financials contents' w')
             = fst (Stateful.extract_financials contents w))).
Proof.
  split; [|split].
  - intros w. rewrite !extract_financials_run.
    destruct (extract_text_from_pdf_run contents w []) as [E0 _].
    destruct (extract_text_from_pdf_run contents w (Stateful.heap w))
      as [E1 _].
    assert (W : {| Stateful.heap := Stateful.heap w;
                   Stateful.libs := Stateful.libs w |} = w)
      by (destruct w; reflexivity).
    rewrite W in E1. unfold detached. rewrite E0. rewrite E1 at 1.
    destruct (fst (Stateful.extract_text_from_pdf contents w))
      as [text|e|]; unfold attach; cbn [fst snd Stateful.heap Stateful.libs];
      rewrite ?app_nil_r; reflexivity.
  - intros w. rewrite extract_financials_run.
    pose proof (extract_text_from_pdf_heap contents w) as H.
    destruct (extract_text_from_pdf_run contents w []) as [_ F].
    destruct (Stateful.extract_text_from_pdf contents w) as [[text|e|] w1];
      cbn [fst snd Stateful.heap Stateful.libs body] in *.
    + exists text. rewrite H. split; reflexivity.
    + exact H.
    + apply F. reflexivity.
  - intros D.
    assert (O : forall c w,
               fst (Stateful.extract_financials c w)
               = Stateful.outcome_of (extract_financials c))
      by (intros c w; apply extract_financials_outcome; exact D).
    split; [intros w; apply O|].
    split; [intros w; rewrite !O; reflexivity|].
    intros contents' w w' E. rewrite !O. unfold extract_financials.
    rewrite E. reflexivity.
Qed.

End Runs.

(** ** The handler on example documents *)

(** A candidate line with an unrecognized label: the informational row. *)
Lemma no_data_fallback_witness :
  extract_text_from_pdf (L := plain_text_reader)
    (bytes_of "Revenue grew 5 percent")
  = Return (lit "Revenue grew 5 percent" ++ [nl])
  /\ get_income_statement_lines (lit "Revenue grew 5 percent" ++ [nl])
     = [lit "Revenue grew 5 percent"]
  /\ normalize_label (lit "Revenue grew 5 percent") = Unrecognized
  /\ build_frame (lit "Revenue grew 5 percent" ++ [nl]) = [info_row]
  /\ http_status
       (extract_financials (L := plain_text_reader) (P := plain_csv_writer)
          (bytes_of "Revenue grew 5 percent"))
     = 200.
Proof.
  assert (T : extract_text_from_pdf (L := plain_text_reader)
                (bytes_of "Revenue grew 5 percent")
              = Return (lit "Revenue grew 5 percent" ++ [nl]))
    by (vm_compute; reflexivity).
  assert (N : forall line,
             In line (get_income_statement_lines
                        (lit "Revenue grew 5 percent" ++ [nl])) ->
             normalize_label line = Unrecognized \/ extract_numbers line = []).
  { intros line I. vm_compute in I. destruct I as [<- | []].
    left. vm_compute. reflexivity. }
  destruct (@no_data_fallback plain_text_reader plain_csv_writer _ _ T N)
    as (F & _ & _ & _ & _ & _ & S).
  split; [exact T|]. split; [vm_compute; reflexivity|].
  split; [vm_compute; reflexivity|]. split; [exact F | exact S].
Defined.

(** Fifty pages: the text is that of the first forty, and other text on
    the last ten changes nothing. *)
Lemma first_forty_pages_witness :
  length (pdf_pages (PdfPlumber := plain_text_reader)
            (Py.split ff (map ascii_of_byte fifty_pages))) = 50
  /\ extract_text_from_pdf (L := plain_text_reader) fifty_pages
     = Return (concat (repeat (lit "Net sales 1,200" ++ [nl]) 40))
  /\ fifty_other_pages <> fifty_pages
  /\ extract_financials (L := plain_text_reader) (P := plain_csv_writer)
       fifty_other_pages
     = extract_financials (L := plain_text_reader) (P := plain_csv_writer)
         fifty_pages.
Proof.
  assert (O : pdf_open (PdfPlumber := plain_text_reader) fifty_pages
              = Return (Py.split ff (map ascii_of_byte fifty_pages)))
    by reflexivity.
  assert (OK : forall pg : page (PdfPlumber := plain_text_reader),
             In pg (firstn 40 (pdf_pages (PdfPlumber := plain_text_reader)
                                 (Py.split ff (map ascii_of_byte fifty_pages)))) ->
             exists page_text, page_extract_text pg = Return page_text)
    by (intros pg _; eexists; reflexivity).
  destruct (@first_forty_pages plain_text_reader plain_csv_writer _ _ O OK)
    as (T & _ & _ & Same).
  split; [vm_compute; reflexivity|].
  split; [rewrite T; vm_compute; reflexivity|].
  split; [vm_compute; discriminate|].
  apply (Same fifty_other_pages
              (Py.split ff (map ascii_of_byte fifty_other_pages)));
    vm_compute; reflexivity.
Defined.

(** With libraries whose answer depends on their state the second run
    differs from the first, though it still touches none of the
    objects of the first. *)
Lemma stamping_libraries_differ :
  let w := @Stateful.Build_world plain_text_reader stamping_libraries
             [] 0 in
  let run1 := Stateful.extract_financials (Lib := stamping_libraries)
                (bytes_of "Net sales 5") w in
  let run2 := Stateful.extract_financials (Lib := stamping_libraries)
                (bytes_of "Net sales 5") (snd run1) in
  fst run1 <> fst run2.
Proof. vm_compute. discriminate. Qed.

(** Libraries that count their calls: a document of two pages, in a
    process that holds an object already. *)
Lemma runs_are_independent_witness :
  let w := @Stateful.Build_world plain_text_reader counting_libraries
             [Stateful.StrList [lit "kept"]] 7 in
  let contents := bytes_of "Net sales 5" ++ [x0c] ++ bytes_of "EPS 1.2" in
  let run1 := Stateful.extract_financials (Lib := counting_libraries)
                contents w in
  let run2 := Stateful.extract_financials (Lib := counting_libraries)
                contents (snd run1) in
  libraries_deterministic plain_csv_writer counting_libraries
  /\ Stateful.libs (snd run1) <> Stateful.libs w
  /\ fst run2 = fst run1
  /\ fst run1
     = Stateful.Normal
         (StreamingResponse
            (lit "Raw Line,Standard Label,Values Found" ++ [nl]
             ++ lit "Net sales 5,Revenue,5" ++ [nl]
             ++ lit "EPS 1.2,EPS,1.2" ++ [nl])
            (lit "text/csv")
            [ (lit "Content-Disposition",
               lit "attachment; filename=financial_extraction.csv") ]).
Proof.
  cbv zeta.
  assert (D : libraries_deterministic plain_csv_writer counting_libraries)
    by (repeat split; reflexivity).
  split; [exact D|].
  split; [vm_compute; discriminate|].
  split.
  - apply (proj1 (proj2 (proj2 (proj2
             (@runs_are_independent plain_text_reader plain_csv_writer
                counting_libraries
                (bytes_of "Net sales 5" ++ [x0c] ++ bytes_of "EPS 1.2")))
             D))).
  - vm_compute. reflexivity.
Defined.

(** The empty byte stream is not a document. *)
Lemma decoding_is_the_only_failure_witness :
  pdf_open (PdfPlumber := plain_text_reader) [] = Raise tt
  /\ extract_financials (L := plain_text_reader) (P := plain_csv_writer) []
     = Raise tt
  /\ http_status
       (extract_financials (L := plain_text_reader) (P := plain_csv_writer) [])
     = 500.
Proof.
  split; [reflexivity|].
  destruct (proj1 (@decoding_is_the_only_failure
                     plain_text_reader plain_csv_writer []) tt eq_refl)
    as (_ & F & S).
  split; [exact F | exact S].
Defined.

(** C4, as the specification states it, fails: bytes that are not a
    document are not answered with a 4xx status.  On the empty byte
    stream the reader raises, the handler raises the same exception and
    the client sees status 500. *)
Lemma malformed_input_not_4xx :
  pdf_open (PdfPlumber := plain_text_reader) [] = Raise tt
  /\ extract_financials (L := plain_text_reader) (P := plain_csv_writer) []
     = Raise tt
  /\ ~ (forall (L : PdfPlumber) (P : Pandas) (contents : list byte)
               (e : pdf_exn),
           pdf_open contents = Raise e ->
           400 <= http_status (extract_financials contents) < 500).
Proof.
  split; [reflexivity|]. split; [reflexivity|].
  intros H.
  specialize (H plain_text_reader plain_csv_writer [] tt eq_refl).
  change (400 <= 500 < 500) in H. lia.
Qed.

(** ** Signed decimal numerals, on examples *)

Example signed_decimal_examples :
  map is_signed_decimal
      [lit "1200"; lit "-1234"; lit "9.99"; lit "-0.5";
       lit "(123"; lit "--5"; lit "5)"; lit "3.4.5"; lit "7."; lit ""]
  = [true; true; true; true; false; false; false; false; false; false].
Proof. vm_compute. reflexivity. Qed.

(* ================================================================== *)
(** * Part IV: further properties of the code *)
(* ================================================================== *)

(** ** How the filter, the normalizer and the parser fit together *)

Lemma is_substring_trans (a b s : str) :
  is_substring a b -> is_substring b s -> is_substring a s.
Proof.
  intros (p & q & ->) (u & v & ->).
  exists (u ++ p), (q ++ v). rewrite <- !app_assoc. reflexivity.
Qed.

Lemma has_keyword_iff (lower : str) :
  has_keyword lower = true <->
  exists term, In term financial_terms /\ is_substring term lower.
Proof.
  unfold has_keyword. rewrite existsb_exists.
  split; intros [term [I C]]; exists term; split; auto;
    apply contains_iff; exact C.
Qed.

(** The label is recognized exactly when the lowercased line contains
    one of the phrases of the table. *)
Lemma recognized_iff_phrase (line : str) :
  normalize_label line <> Unrecognized <->
  exists phrase,
    In phrase label_phrases /\ is_substring phrase (Py.lower line).
Proof.
  rewrite normalize_label_first_match.
  destruct (first_match_cases label_rules (Py.lower line))
    as [(before & rule & after & E & F & M & _) | [F N]].
  - assert (I : In rule label_rules)
      by (rewrite E; apply in_or_app; right; left; reflexivity).
    split.
    + intros _. apply rule_matches_iff in M. destruct M as [phrase [J S]].
      exists phrase. split; [|exact S].
      unfold label_phrases. apply in_concat. exists (fst rule).
      split; [apply in_map; exact I | exact J].
    + intros _. rewrite F.
      assert (A : forallb (fun r => negb (Py.eqb (snd r) Unrecognized))
                          label_rules = true) by reflexivity.
      rewrite forallb_forall in A. specialize (A rule I).
      apply negb_true_iff, eqb_false_iff in A. exact A.
  - split; [intros X; destruct (X F)|].
    intros [phrase [J S]]. exfalso.
    unfold label_phrases in J. apply in_concat in J.
    destruct J as [phrases [J1 J2]]. apply in_map_iff in J1.
    destruct J1 as [rule [<- I]].
    apply (proj1 (rule_matches_false_iff _ _) (N rule I) phrase J2 S).
Qed.

(** X1.  For a line that passed the filter the orchestrator's test on
    the numbers never fails: such a line has a token.  So a candidate
    line gives a row exactly when its label is recognized, that is when
    its lowercased form contains one of the phrases of the normalizer;
    the filter's keywords alone do not make a row. *)
Theorem candidate_row_iff_label (line : str) :
  is_candidate line = true ->
  extract_numbers line <> []
  /\ (qualifies line = true <-> normalize_label line <> Unrecognized)
  /\ (qualifies line = true <->
      exists phrase,
        In phrase label_phrases /\ is_substring phrase (Py.lower line)).
Proof.
  intros C. unfold is_candidate in C. apply andb_true_iff in C.
  destruct C as [D _].
  pose proof (extract_numbers_nonempty line D) as N.
  split; [exact N|].
  assert (Q : qualifies line = true <-> normalize_label line <> Unrecognized)
    by (rewrite qualifies_iff; tauto).
  split; [exact Q|]. rewrite Q. apply recognized_iff_phrase.
Qed.

(** A candidate line with a number and a keyword only: no row. *)
Lemma candidate_row_iff_label_witness :
  is_candidate (lit "Total revenue 1,000") = true
  /\ extract_numbers (lit "Total revenue 1,000") <> []
  /\ qualifies (lit "Total revenue 1,000") = false.
Proof.
  destruct (@candidate_row_iff_label (lit "Total revenue 1,000") eq_refl)
    as (N & _ & _).
  split; [reflexivity|]. split; [exact N | reflexivity].
Defined.

(** X2.  The normalizer and the filter agree except on one label: a
    line with a digit whose label is recognized passes the filter,
    unless the label is Net Income and comes from "net profit" or "net
    earnings" alone. *)
Theorem labelled_lines_pass_filter (line : str) :
  has_digit line = true ->
  normalize_label line <> Unrecognized ->
  normalize_label line <> lit "Net Income"
  \/ is_substring (lit "net income") (Py.lower line) ->
  is_candidate line = true.
Proof.
  intros D U H. unfold is_candidate. rewrite D. simpl.
  apply has_keyword_iff.
  destruct H as [H | H];
    [| exists (lit "net income"); split;
       [vm_compute; intuition | exact H]].
  rewrite normalize_label_first_match in H, U.
  destruct (first_match_cases label_rules (Py.lower line))
    as [(before & rule & after & E & F & M & _) | [F _]]; [|congruence].
  assert (I : In rule label_rules)
    by (rewrite E; apply in_or_app; right; left; reflexivity).
  rewrite F in H. apply rule_matches_iff in M.
  destruct M as [phrase [J S]].
  assert (K : forall term,
             In term financial_terms -> is_substring term phrase ->
             exists t, In t financial_terms /\
                       is_substring t (Py.lower line)).
  { intros term T P. exists term. split; [exact T|].
    apply (is_substring_trans P S). }
  cbv [label_rules In] in I.
  repeat (destruct I as [<- | I]); try destruct I;
    cbv [fst snd In] in J, H;
    try (exfalso; apply H; reflexivity);
    repeat (destruct J as [<- | J]); try destruct J.
  - apply (K (lit "sales")); [vm_compute; intuition|].
    apply contains_iff; reflexivity.
  - apply (K (lit "sales")); [vm_compute; intuition|].
    apply contains_iff; reflexivity.
  - apply (K (lit "cost")); [vm_compute; intuition|].
    apply contains_iff; reflexivity.
  - apply (K (lit "gross")); [vm_compute; intuition|].
    apply contains_iff; reflexivity.
  - apply (K (lit "gross")); [vm_compute; intuition|].
    apply contains_iff; reflexivity.
  - apply (K (lit "operating income")); [vm_compute; intuition|].
    apply contains_iff; reflexivity.
  - apply (K (lit "operating expenses")); [vm_compute; intuition|].
    apply contains_iff; reflexivity.
  - apply (K (lit "earnings per share")); [vm_compute; intuition|].
    apply contains_iff; reflexivity.
  - apply (K (lit "eps")); [vm_compute; intuition|].
    apply contains_iff; reflexivity.
Qed.

(** A gross margin line. *)
Lemma labelled_lines_pass_filter_witness :
  has_digit (lit "Gross Margin 43.3%") = true
  /\ normalize_label (lit "Gross Margin 43.3%") = lit "Gross Profit"
  /\ is_candidate (lit "Gross Margin 43.3%") = true.
Proof.
  split; [reflexivity|]. split; [reflexivity|].
  apply labelled_lines_pass_filter.
  - reflexivity.
  - vm_compute. discriminate.
  - left. vm_compute. discriminate.
Defined.

Lemma not_substring_longer (a b s : str) :
  is_substring a b -> ~ is_substring a s -> Py.contains b s = false.
Proof.
  intros AB N. apply contains_false_iff. intros BS.
  apply N. apply (is_substring_trans AB BS).
Qed.

(** X3.  The tests for "net profit" and "net earnings" are reached by
    no line of their own: a line with one of these phrases and none of
    the filter's keywords is labelled Net Income by the normalizer, but
    the filter rejects it, so no document text yields it as a candidate
    line or as the raw line of a row. *)
Theorem net_profit_lines_are_dropped (line : str) :
  has_keyword (Py.lower line) = false ->
  is_substring (lit "net profit") (Py.lower line)
  \/ is_substring (lit "net earnings") (Py.lower line) ->
  normalize_label line = lit "Net Income"
  /\ is_candidate line = false
  /\ (forall text, ~ In line (get_income_statement_lines text))
  /\ (forall text r,
         In r (collect_rows (get_income_statement_lines text)) ->
         raw_line r <> line).
Proof.
  intros K P.
  assert (C : is_candidate line = false)
    by (unfold is_candidate; rewrite K; apply andb_false_r).
  assert (G : forall text, ~ In line (get_income_statement_lines text)).
  { intros text I. rewrite get_income_statement_lines_filter in I.
    apply filter_In in I. destruct I as [_ I]. congruence. }
  split; [|split; [exact C|split; [exact G|]]].
  - assert (T : forall term,
               In term financial_terms ->
               ~ is_substring term (Py.lower line)).
    { intros term I S.
      assert (X : has_keyword (Py.lower line) = true)
        by (apply has_keyword_iff; eauto).
      congruence. }
    assert (sales : ~ is_substring (lit "sales") (Py.lower line))
      by (apply T; vm_compute; intuition).
    assert (cost : ~ is_substring (lit "cost") (Py.lower line))
      by (apply T; vm_compute; intuition).
    assert (gross : ~ is_substring (lit "gross") (Py.lower line))
      by (apply T; vm_compute; intuition).
    assert (oi : ~ is_substring (lit "operating income") (Py.lower line))
      by (apply T; vm_compute; intuition).
    assert (oe : ~ is_substring (lit "operating expenses") (Py.lower line))
      by (apply T; vm_compute; intuition).
    unfold normalize_label. cbv zeta.
    rewrite (@not_substring_longer (lit "sales") (lit "total net sales") _
               ltac:(apply contains_iff; reflexivity) sales).
    rewrite (@not_substring_longer (lit "sales") (lit "net sales") _
               ltac:(apply contains_iff; reflexivity) sales).
    rewrite (@not_substring_longer (lit "cost") (lit "cost of sales") _
               ltac:(apply contains_iff; reflexivity) cost).
    rewrite (@not_substring_longer (lit "gross") (lit "gross margin") _
               ltac:(apply contains_iff; reflexivity) gross).
    rewrite (@not_substring_longer (lit "gross") (lit "gross profit") _
               ltac:(apply contains_iff; reflexivity) gross).
    rewrite (proj2 (contains_false_iff _ _) oi).
    rewrite (proj2 (contains_false_iff _ _) oe).
    cbn [orb].
    destruct P as [P | P]; apply contains_iff in P; rewrite P;
      rewrite ?orb_true_r; reflexivity.
  - intros text r I E. apply in_collect_rows in I.
    destruct I as (l & I & _ & ->). cbn [make_row raw_line] in E.
    subst l. apply (G text I).
Qed.

(** A net profit line. *)
Lemma net_profit_lines_are_dropped_witness :
  has_keyword (Py.lower (lit "Net profit 500")) = false
  /\ normalize_label (lit "Net profit 500") = lit "Net Income"
  /\ ~ In (lit "Net profit 500")
          (get_income_statement_lines (lit "Net profit 500")).
Proof.
  assert (S : is_substring (lit "net profit")
                           (Py.lower (lit "Net profit 500")))
    by (apply contains_iff; reflexivity).
  destruct (@net_profit_lines_are_dropped (lit "Net profit 500") eq_refl
              (or_introl S))
    as (L & _ & G & _).
  split; [reflexivity|]. split; [exact L | apply G].
Defined.

(** ** The tokens of a line *)

Lemma forallb_keep_filter {A : Type} (p q : A -> bool) (l : list A) :
  forallb p l = true -> forallb p (filter q l) = true.
Proof.
  induction l as [|x l IH]; simpl; [auto|].
  rewrite andb_true_iff. intros [X H].
  destruct (q x); simpl; [rewrite X|]; auto.
Qed.

Lemma forallb_weaken {A : Type} (p q : A -> bool) (l : list A) :
  (forall x, p x = true -> q x = true) ->
  forallb p l = true -> forallb q l = true.
Proof.
  intros W. induction l as [|x l IH]; simpl; [auto|].
  rewrite !andb_true_iff. intros [X H]. auto.
Qed.

Lemma in_body_match_char (c : ascii) :
  in_body c = true -> match_char c = true.
Proof. unfold match_char. intros ->. reflexivity. Qed.

(** Every character of a substring of the numeric shape is one the
    pattern can match. *)
Lemma token_shape_chars (m : str) :
  token_shape m -> forallb match_char m = true.
Proof.
  intros [op mi d body cl Hop Hmi D B Hcl].
  rewrite !forallb_app. cbn [forallb]. rewrite forallb_app.
  rewrite (in_body_match_char _ (isdecimal_in_body _ D)).
  rewrite (forallb_weaken _ _ _ in_body_match_char B).
  destruct Hop as [-> | ->], Hmi as [-> | ->], Hcl as [-> | ->];
    reflexivity.
Qed.

Lemma match_char_token_alphabet (c : ascii) :
  match_char c = true -> negb (Ascii.eqb c ",") = true ->
  token_alphabet c = true.
Proof.
  destruct c as [[] [] [] [] [] [] [] []]; vm_compute; congruence.
Qed.

Lemma token_alphabet_facts (c : ascii) :
  token_alphabet c = true ->
  Ascii.eqb "," c = false /\ Py.isspace c = false.
Proof.
  destruct c as [[] [] [] [] [] [] [] []]; vm_compute; intuition congruence.
Qed.

Lemma strip_commas_alphabet (m : str) :
  forallb match_char m = true ->
  forallb token_alphabet (strip_commas m) = true.
Proof.
  unfold strip_commas. induction m as [|c m IH]; cbn [forallb filter]; [auto|].
  rewrite andb_true_iff. intros [C M].
  destruct (negb (Ascii.eqb c ",")) eqn:E; cbn [forallb]; [|auto].
  rewrite (match_char_token_alphabet _ C E). auto.
Qed.

Lemma existsb_filter_out (c : ascii) (l : str) :
  existsb (Ascii.eqb c) (filter (fun x => negb (Ascii.eqb x c)) l) = false.
Proof.
  induction l as [|x l IH]; cbn [filter existsb]; [reflexivity|].
  destruct (Ascii.eqb x c) eqn:E; cbn [negb existsb]; [exact IH|].
  rewrite Ascii.eqb_sym, E. exact IH.
Qed.

Lemma existsb_keep_filter {A : Type} (p q : A -> bool) (l : list A) :
  existsb p l = false -> existsb p (filter q l) = false.
Proof.
  induction l as [|x l IH]; simpl; [auto|].
  rewrite orb_false_iff. intros [X H].
  destruct (q x); simpl; [rewrite X|]; auto.
Qed.

(** Whatever is cleaned, the result has no comma and never both
    parentheses. *)
Lemma clean_number_punctuation (num : str) :
  Py.contains (lit ",") (clean_number num) = false
  /\ Py.contains (lit "(") (clean_number num)
     && Py.contains (lit ")") (clean_number num) = false.
Proof.
  change (lit ",") with [","%char]. change (lit "(") with ["("%char].
  change (lit ")") with [")"%char]. rewrite !contains_char.
  rewrite clean_number_filter. cbv zeta.
  pose proof (existsb_filter_out "," num) as NC. fold (strip_commas num) in NC.
  set (t := strip_commas num) in *. clearbody t.
  destruct (existsb (Ascii.eqb "(") t && existsb (Ascii.eqb ")") t) eqn:E.
  - cbn [existsb].
    change (Ascii.eqb "," "-") with false. change (Ascii.eqb "(" "-") with false.
    cbn [orb]. split.
    + apply existsb_keep_filter, existsb_keep_filter. exact NC.
    + rewrite (existsb_keep_filter _ _ _ (existsb_filter_out "(" t)).
      reflexivity.
  - split; [exact NC | exact E].
Qed.

(** The characters of the tokens of a line. *)
Lemma extract_numbers_alphabet (line token : str) :
  In token (extract_numbers line) -> forallb token_alphabet token = true.
Proof.
  intros I. rewrite extract_numbers_map in I. apply in_map_iff in I.
  destruct I as [m [<- I]].
  destruct (findall_number_decomposition line)
    as (pieces & tail & _ & F & P & _).
  rewrite F in I. apply in_map_iff in I. destruct I as [[gap m'] [<- I]].
  rewrite Forall_forall in P. destruct (P _ I) as [_ Sh]. cbn [snd] in *.
  rewrite clean_number_filter. cbv zeta.
  pose proof (strip_commas_alphabet _ (token_shape_chars Sh)) as T.
  destruct (existsb (Ascii.eqb "(") (strip_commas m')
            && existsb (Ascii.eqb ")") (strip_commas m')); [|exact T].
  cbn [forallb]. change (token_alphabet "-") with true. cbn [andb].
  apply forallb_keep_filter, forallb_keep_filter. exact T.
Qed.

(** X4.  Every token of a line has a digit and is made of digits,
    periods, minus signs and parentheses only: it has no comma, no
    white space, and never both an opening and a closing parenthesis. *)
Theorem tokens_are_clean (line token : str) :
  In token (extract_numbers line) ->
  has_digit token = true
  /\ forallb token_alphabet token = true
  /\ Py.contains (lit ",") token = false
  /\ forallb (fun c => negb (Py.isspace c)) token = true
  /\ Py.contains (lit "(") token && Py.contains (lit ")") token = false.
Proof.
  intros I. pose proof (extract_numbers_tokens _ _ I) as D.
  pose proof (extract_numbers_alphabet _ _ I) as A.
  rewrite extract_numbers_map in I. apply in_map_iff in I.
  destruct I as [m [<- I]].
  destruct (clean_number_punctuation m) as [NC NP].
  split; [exact D|]. split; [exact A|]. split; [exact NC|].
  split; [|exact NP].
  apply (forallb_weaken token_alphabet); [|exact A].
  intros c C. destruct (token_alphabet_facts _ C) as [_ ->]. reflexivity.
Qed.

(** The tokens of an accounting line. *)
Lemma tokens_are_clean_witness :
  In (lit "-1234") (extract_numbers (lit "Cost of sales (1,234) 5,678.9"))
  /\ has_digit (lit "-1234") = true
  /\ Py.contains (lit ",") (lit "-1234") = false.
Proof.
  assert (I : In (lit "-1234")
                 (extract_numbers (lit "Cost of sales (1,234) 5,678.9")))
    by (vm_compute; left; reflexivity).
  destruct (tokens_are_clean _ _ I) as (D & _ & C & _).
  split; [exact I|]. split; [exact D | exact C].
Defined.

Lemma filter_pointwise {A : Type} (p q : A -> bool) (l : list A) :
  (forall x, p x = q x) -> filter p l = filter q l.
Proof.
  intros E. induction l as [|x l IH]; simpl; [reflexivity|].
  rewrite E, IH. reflexivity.
Qed.

Lemma filter_digits_without (old : ascii) (s : str) :
  Py.isdecimal old = false ->
  filter Py.isdecimal (filter (fun c => negb (Ascii.eqb c old)) s)
  = filter Py.isdecimal s.
Proof.
  intros O. rewrite filter_filter. apply filter_pointwise. intros c.
  destruct (Ascii.eqb c old) eqn:E; cbn [negb andb]; [|reflexivity].
  apply Ascii.eqb_eq in E. subst c. symmetry. exact O.
Qed.

(** Cleaning a match keeps its digits, in order. *)
Lemma clean_number_digits (num : str) :
  filter Py.isdecimal (clean_number num) = filter Py.isdecimal num.
Proof.
  rewrite clean_number_filter. cbv zeta. unfold strip_commas.
  destruct (_ && _).
  - cbn [filter]. change (Py.isdecimal "-") with false. cbv iota.
    rewrite !filter_digits_without by reflexivity. reflexivity.
  - apply filter_digits_without. reflexivity.
Qed.

Lemma filter_no_digit (s : str) :
  has_digit s = false -> filter Py.isdecimal s = [].
Proof.
  unfold has_digit. induction s as [|c s IH]; simpl; [reflexivity|].
  rewrite orb_false_iff. intros [-> H]. auto.
Qed.

(** X5.  No digit of a line is lost, added or moved: the digits of the
    tokens, read in order, are the digits of the line. *)
Theorem digits_are_preserved (line : str) :
  filter Py.isdecimal (concat (extract_numbers line))
  = filter Py.isdecimal line.
Proof.
  rewrite extract_numbers_map.
  destruct (findall_number_decomposition line)
    as (pieces & tail & -> & -> & P & T).
  induction pieces as [|[gap m] pieces IH]; cbn [map snd concat interleave].
  - rewrite (filter_no_digit _ T). reflexivity.
  - inversion P as [|? ? [G _] P']; subst. cbn [fst] in G.
    rewrite !filter_app, clean_number_digits, (filter_no_digit _ G).
    rewrite <- (IH P'). reflexivity.
Qed.

(** ** Tokens and separators *)

(** Two ways to cut one text: one cut is inside the other part. *)
Lemma app_eq_app_sep (m r u v : str) (c : ascii) :
  m ++ r = u ++ c :: v ->
  (exists w, u = m ++ w) \/ (exists w, m = u ++ c :: w).
Proof.
  revert u. induction m as [|x m IH]; intros u E.
  - left. exists u. reflexivity.
  - destruct u as [|y u]; simpl in E.
    + inversion E; subst. right. exists m. reflexivity.
    + inversion E as [[X E']]. subst y.
      destruct (IH u E') as [[w ->] | [w ->]].
      * left. exists w. reflexivity.
      * right. exists w. reflexivity.
Qed.

Lemma shape_not_across (m u w : str) (c : ascii) :
  match_char c = false -> token_shape m -> m <> u ++ c :: w.
Proof.
  intros C Sh ->. apply token_shape_chars in Sh.
  rewrite forallb_app in Sh. cbn [forallb] in Sh.
  rewrite C, andb_false_r in Sh. discriminate.
Qed.

(** The scan of a text cut by a character that no match can hold is the
    scan of the first part followed by the scan of the second. *)
Lemma scans_app_sep (a b : str) (c : ascii) (ms_a ms_b : list str) :
  match_char c = false ->
  scans a ms_a -> scans b ms_b ->
  scans (a ++ c :: b) (ms_a ++ ms_b).
Proof.
  intros C Sa Sb.
  induction Sa as [| x s ms No _ IH | m rest ms Sh Long _ IH].
  - cbn [app]. apply scans_skip; [|exact Sb].
    intros m r E Sh.
    pose proof (token_shape_nonempty Sh) as NE.
    destruct m as [|y m]; [congruence|].
    inversion E; subst y.
    apply (@shape_not_across (c :: m) [] m c C Sh). reflexivity.
  - cbn [app]. apply scans_skip; [|exact IH].
    intros m r E Sh.
    change (x :: s ++ c :: b) with ((x :: s) ++ c :: b) in E.
    symmetry in E. destruct (@app_eq_app_sep m r (x :: s) b c E)
      as [[w W] | [w W]].
    + apply (No m w W Sh).
    + apply (@shape_not_across m (x :: s) w c C Sh W).
  - rewrite <- app_assoc. cbn [app]. apply scans_take; [exact Sh | | exact IH].
    intros m' r' E Sh'.
    rewrite app_assoc in E.
    destruct (@app_eq_app_sep m' r' (m ++ rest) b c (eq_sym E))
      as [[w W] | [w W]].
    + apply (Long m' w W Sh').
    + destruct (@shape_not_across m' (m ++ rest) w c C Sh' W).
Qed.

Lemma scans_findall_tokens (a b : str) (c : ascii) :
  match_char c = false ->
  extract_numbers (a ++ c :: b) = extract_numbers a ++ extract_numbers b.
Proof.
  intros C. rewrite !extract_numbers_map, <- map_app. f_equal.
  symmetry. apply scans_findall.
  apply scans_app_sep; [exact C | apply findall_scans | apply findall_scans].
Qed.

(** X6.  Numbers are read one by one: across a character that is no
    digit, comma, period, minus sign or parenthesis (a space, a letter)
    the tokens of a line are the tokens of what stands before it
    followed by the tokens of what stands after it. *)
Theorem tokens_do_not_cross_separators (a b : str) (c : ascii) :
  match_char c = false ->
  extract_numbers (a ++ c :: b) = extract_numbers a ++ extract_numbers b.
Proof.
  apply scans_findall_tokens.
Qed.

(** Two numbers around a space. *)
Lemma tokens_do_not_cross_separators_witness :
  match_char " " = false
  /\ extract_numbers (lit "Net sales (1,200)" ++ " "%char :: lit "900")
     = extract_numbers (lit "Net sales (1,200)") ++ extract_numbers (lit "900")
  /\ extract_numbers (lit "Net sales (1,200)") ++ extract_numbers (lit "900")
     = [lit "-1200"; lit "900"].
Proof.
  split; [reflexivity|]. split.
  - apply tokens_do_not_cross_separators. reflexivity.
  - vm_compute. reflexivity.
Defined.

(** ** Letter case *)

Lemma lower_char_idempotent (c : ascii) :
  Py.lower_char (Py.lower_char c) = Py.lower_char c.
Proof. destruct c as [[] [] [] [] [] [] [] []]; reflexivity. Qed.

Lemma lower_idempotent (s : str) : Py.lower (Py.lower s) = Py.lower s.
Proof.
  unfold Py.lower. rewrite map_map. apply map_ext.
  apply lower_char_idempotent.
Qed.

Lemma lower_char_digit (c : ascii) :
  Py.isdecimal (Py.lower_char c) = Py.isdecimal c.
Proof. destruct c as [[] [] [] [] [] [] [] []]; reflexivity. Qed.

Lemma has_digit_lower (s : str) : has_digit (Py.lower s) = has_digit s.
Proof.
  unfold has_digit, Py.lower. induction s as [|c s IH]; simpl; [reflexivity|].
  rewrite lower_char_digit, IH. reflexivity.
Qed.

(** A character that a match can hold is its own lowercase, and only
    such a character lowers to one. *)
Lemma lower_char_match_char (c : ascii) :
  match_char (Py.lower_char c) = match_char c
  /\ (match_char c = true -> Py.lower_char c = c).
Proof.
  destruct c as [[] [] [] [] [] [] [] []]; vm_compute; intuition congruence.
Qed.

Lemma lower_fixes_matches (m : str) :
  forallb match_char m = true -> Py.lower m = m.
Proof.
  induction m as [|c m IH]; cbn [forallb Py.lower map]; [reflexivity|].
  rewrite andb_true_iff. intros [C M]. fold (Py.lower m).
  rewrite (proj2 (lower_char_match_char c) C), (IH M). reflexivity.
Qed.

(** A substring of the numeric shape at the start of the lowercased
    text stands at the start of the text itself. *)
Lemma lower_prefix_shape (m : str) :
  forallb match_char m = true ->
  forall s r', Py.lower s = m ++ r' ->
               exists r, s = m ++ r /\ r' = Py.lower r.
Proof.
  induction m as [|c m IH]; cbn [forallb]; intros M s r' E.
  - exists s. split; [reflexivity | symmetry; exact E].
  - apply andb_true_iff in M. destruct M as [C M].
    destruct s as [|x s]; [discriminate|].
    cbn [Py.lower map app] in E. fold (Py.lower s) in E.
    injection E as X E'.
    destruct (IH M s r' E') as [r [-> ->]].
    exists r. split; [|reflexivity]. cbn [app]. f_equal.
    destruct (lower_char_match_char x) as [A B].
    assert (Mx : match_char x = true) by (rewrite <- A, X; exact C).
    rewrite <- X. symmetry. apply B. exact Mx.
Qed.

Lemma lower_app (a b : str) : Py.lower (a ++ b) = Py.lower a ++ Py.lower b.
Proof. apply map_app. Qed.

(** Lowercasing a text does not change its scan. *)
Lemma scans_lower (s : str) (ms : list str) :
  scans s ms -> scans (Py.lower s) ms.
Proof.
  induction 1 as [| x s ms No _ IH | m rest ms Sh Long _ IH].
  - constructor.
  - cbn [Py.lower map]. fold (Py.lower s). apply scans_skip; [|exact IH].
    intros m r E Sh.
    change (Py.lower_char x :: Py.lower s) with (Py.lower (x :: s)) in E.
    destruct (@lower_prefix_shape m (token_shape_chars Sh) _ _ E)
      as [r0 [E0 _]].
    apply (No m r0 E0 Sh).
  - rewrite lower_app, (@lower_fixes_matches m (token_shape_chars Sh)).
    apply scans_take; [exact Sh | | exact IH].
    intros m' r' E Sh'.
    rewrite <- (@lower_fixes_matches m (token_shape_chars Sh)) in E.
    rewrite <- lower_app in E.
    destruct (@lower_prefix_shape m' (token_shape_chars Sh') _ _ E)
      as [r0 [E0 _]].
    apply (Long m' r0 E0 Sh').
Qed.

Lemma extract_numbers_lower (line : str) :
  extract_numbers (Py.lower line) = extract_numbers line.
Proof.
  rewrite !extract_numbers_map. f_equal. symmetry.
  apply scans_findall, scans_lower, findall_scans.
Qed.

(** X7.  Letter case does not matter: two lines that are equal once
    lowercased get the same label, the same verdict of the filter and
    the same tokens; each line is treated as its lowercased form. *)
Theorem letter_case_is_ignored (a b : str) :
  Py.lower a = Py.lower b ->
  normalize_label a = normalize_label b
  /\ is_candidate a = is_candidate b
  /\ extract_numbers a = extract_numbers b
  /\ qualifies a = qualifies b
  /\ normalize_label (Py.lower a) = normalize_label a.
Proof.
  intros E.
  assert (N : forall x y, Py.lower x = Py.lower y ->
                          normalize_label x = normalize_label y)
    by (intros x y H; unfold normalize_label; rewrite H; reflexivity).
  assert (X : extract_numbers a = extract_numbers b)
    by (rewrite <- (extract_numbers_lower a), E; apply extract_numbers_lower).
  split; [apply N; exact E|]. split; [|split; [exact X|split]].
  - unfold is_candidate. rewrite <- (has_digit_lower a), E, has_digit_lower.
    reflexivity.
  - unfold qualifies. rewrite (N a b E), X. reflexivity.
  - apply N. apply lower_idempotent.
Qed.

(** A headline in capitals. *)
Lemma letter_case_is_ignored_witness :
  Py.lower (lit "TOTAL NET SALES 1,200") = Py.lower (lit "Total net sales 1,200")
  /\ normalize_label (lit "TOTAL NET SALES 1,200")
     = normalize_label (lit "Total net sales 1,200")
  /\ extract_numbers (lit "TOTAL NET SALES 1,200")
     = extract_numbers (lit "Total net sales 1,200").
Proof.
  destruct (@letter_case_is_ignored (lit "TOTAL NET SALES 1,200")
              (lit "Total net sales 1,200") eq_refl) as (L & _ & X & _).
  split; [reflexivity|]. split; [exact L | exact X].
Defined.

(** ** Trimmed lines *)

Lemma lstrip_starts_clean (s : str) :
  match Py.lstrip s with
  | [] => True
  | c :: _ => Py.isspace c = false
  end.
Proof.
  induction s as [|c s IH]; simpl; [exact I|].
  destruct (Py.isspace c) eqn:E; [exact IH | exact E].
Qed.

Lemma lstrip_fixed (s : str) :
  match s with
  | [] => True
  | c :: _ => Py.isspace c = false
  end ->
  Py.lstrip s = s.
Proof. destruct s as [|c s]; simpl; [auto|]. intros ->. reflexivity. Qed.

Lemma lstrip_idempotent (s : str) : Py.lstrip (Py.lstrip s) = Py.lstrip s.
Proof. apply lstrip_fixed, lstrip_starts_clean. Qed.

Lemma rstrip_idempotent (s : str) : Py.rstrip (Py.rstrip s) = Py.rstrip s.
Proof.
  unfold Py.rstrip. rewrite rev_involutive, lstrip_idempotent. reflexivity.
Qed.

(** [lstrip] keeps a last character that is not white space. *)
Lemma lstrip_keeps_last (l : str) (c : ascii) :
  Py.isspace c = false -> exists t, Py.lstrip (l ++ [c]) = t ++ [c].
Proof.
  intros C. induction l as [|x l IH]; simpl.
  - rewrite C. exists []. reflexivity.
  - destruct (Py.isspace x); [exact IH|]. exists (x :: l). reflexivity.
Qed.

(** Trimming on the right keeps a clean start. *)
Lemma rstrip_starts_clean (y : str) :
  Py.lstrip y = y -> Py.lstrip (Py.rstrip y) = Py.rstrip y.
Proof.
  intros Y. apply lstrip_fixed.
  pose proof (lstrip_starts_clean y) as H. rewrite Y in H.
  destruct y as [|c y]; [exact I|].
  unfold Py.rstrip. cbn [rev].
  destruct (@lstrip_keeps_last (rev y) c H) as [t ->].
  rewrite rev_app_distr. exact H.
Qed.

(** Trimming a trimmed string changes nothing. *)
Lemma strip_idempotent (s : str) : Py.strip (Py.strip s) = Py.strip s.
Proof.
  unfold Py.strip.
  rewrite (@rstrip_starts_clean (Py.lstrip s) (lstrip_idempotent s)).
  apply rstrip_idempotent.
Qed.

Lemma in_lstrip (c : ascii) (s : str) : In c (Py.lstrip s) -> In c s.
Proof.
  induction s as [|x s IH]; simpl; [auto|].
  destruct (Py.isspace x); [right; auto | auto].
Qed.

Lemma in_strip (c : ascii) (s : str) : In c (Py.strip s) -> In c s.
Proof.
  unfold Py.strip, Py.rstrip. intros I.
  apply in_rev, in_lstrip, in_rev, in_lstrip in I. exact I.
Qed.

(** A string without white space is its own trimmed form. *)
Lemma strip_no_space (s : str) :
  forallb (fun c => negb (Py.isspace c)) s = true -> Py.strip s = s.
Proof.
  intros N.
  assert (F : forall t, forallb (fun c => negb (Py.isspace c)) t = true ->
                        Py.lstrip t = t).
  { intros t T. apply lstrip_fixed. destruct t as [|c t]; [exact I|].
    cbn [forallb] in T. apply andb_true_iff in T. destruct T as [T _].
    apply negb_true_iff in T. exact T. }
  unfold Py.strip, Py.rstrip. rewrite (F s N), F.
  - apply rev_involutive.
  - rewrite forallb_forall in *. intros c I. apply N, in_rev. exact I.
Qed.

(** ** Lines and pieces *)

Lemma split_app_sep (sep : ascii) (a b : str) :
  Py.split sep (a ++ sep :: b) = Py.split sep a ++ Py.split sep b.
Proof.
  induction a as [|x a IH]; cbn [app Py.split].
  - rewrite Ascii.eqb_refl. reflexivity.
  - destruct (Ascii.eqb x sep); rewrite IH; [reflexivity|].
    pose proof (split_nonempty sep a) as NE.
    destruct (Py.split sep a) as [|p ps]; [congruence | reflexivity].
Qed.

Lemma split_without_sep (sep : ascii) (p : str) :
  ~ In sep p -> Py.split sep p = [p].
Proof.
  induction p as [|x p IH]; intros N; cbn [Py.split]; [reflexivity|].
  destruct (Ascii.eqb x sep) eqn:E.
  - apply Ascii.eqb_eq in E. subst x. destruct N. left. reflexivity.
  - rewrite IH; [reflexivity|]. intros I. apply N. right. exact I.
Qed.

(** Splitting what was joined gives the parts back. *)
Lemma split_join (sep : ascii) (parts : list str) :
  parts <> [] ->
  (forall p, In p parts -> ~ In sep p) ->
  Py.split sep (Py.join [sep] parts) = parts.
Proof.
  induction parts as [|p parts IH]; intros NE N; [congruence|].
  destruct parts as [|q parts].
  - cbn [Py.join]. apply split_without_sep. apply N. left. reflexivity.
  - change (Py.join [sep] (p :: q :: parts))
      with (p ++ sep :: Py.join [sep] (q :: parts)).
    rewrite split_app_sep, split_without_sep, IH.
    + reflexivity.
    + discriminate.
    + intros x I. apply N. right. exact I.
    + apply N. left. reflexivity.
Qed.

Lemma filter_keeps_all {A : Type} (p : A -> bool) (l : list A) :
  (forall x, In x l -> p x = true) -> filter p l = l.
Proof.
  induction l as [|x l IH]; intros H; simpl; [reflexivity|].
  rewrite (H x (or_introl eq_refl)). f_equal. apply IH.
  intros y I. apply H. right. exact I.
Qed.

Lemma map_fixed {A : Type} (f : A -> A) (l : list A) :
  (forall x, In x l -> f x = x) -> map f l = l.
Proof.
  induction l as [|x l IH]; intros H; simpl; [reflexivity|].
  rewrite (H x (or_introl eq_refl)). f_equal. apply IH.
  intros y I. apply H. right. exact I.
Qed.

(** What a candidate line is like. *)
Lemma candidate_line_facts (text line : str) :
  In line (get_income_statement_lines text) ->
  Py.strip line = line /\ ~ In nl line /\ is_candidate line = true.
Proof.
  rewrite get_income_statement_lines_filter. intros I.
  apply filter_In in I. destruct I as [I C].
  apply in_map_iff in I. destruct I as [raw [<- I]].
  split; [apply strip_idempotent|]. split; [|exact C].
  intros J. apply in_strip in J. apply (@split_no_sep nl text raw I J).
Qed.

(** X8.  The candidate lines are trimmed lines: each is its own trimmed
    form, holds no line feed and is not empty.  Filtering is idempotent:
    the candidate lines, written one per line and filtered again, come
    back unchanged. *)
Theorem candidate_lines_are_stable (text : str) :
  (forall line,
      In line (get_income_statement_lines text) ->
      Py.strip line = line /\ ~ In nl line /\ line <> [])
  /\ get_income_statement_lines
       (Py.join [nl] (get_income_statement_lines text))
     = get_income_statement_lines text.
Proof.
  split.
  - intros line I. destruct (@candidate_line_facts text line I) as (S & N & C).
    split; [exact S|]. split; [exact N|]. intros ->. discriminate C.
  - destruct (get_income_statement_lines text) as [|l ls] eqn:E;
      [reflexivity|].
    rewrite <- E. rewrite (get_income_statement_lines_filter (Py.join _ _)).
    rewrite split_join.
    + rewrite map_fixed, filter_keeps_all; [reflexivity | |];
        intros x I; apply (@candidate_line_facts text x I).
    + rewrite E. discriminate.
    + intros x I. apply (@candidate_line_facts text x I).
Qed.

(** X9.  Lines never span a line feed, so the work is done part by
    part: the candidate lines, and the rows, of two texts joined by a
    line feed are those of the first followed by those of the second; a
    line feed at the end adds nothing; and the rows of a document text
    made of page texts, each followed by a line feed, are the rows of
    the first page text, then those of the second, and so on. *)
Theorem rows_part_by_part (a b : str) :
  get_income_statement_lines (a ++ nl :: b)
  = get_income_statement_lines a ++ get_income_statement_lines b
  /\ collect_rows (get_income_statement_lines (a ++ nl :: b))
     = collect_rows (get_income_statement_lines a)
       ++ collect_rows (get_income_statement_lines b)
  /\ get_income_statement_lines (a ++ [nl]) = get_income_statement_lines a
  /\ (forall texts : list str,
         collect_rows
           (get_income_statement_lines
              (concat (map (fun t => t ++ [nl]) texts)))
         = concat (map (fun t => collect_rows (get_income_statement_lines t))
                       texts)).
Proof.
  assert (G : forall x y,
             get_income_statement_lines (x ++ nl :: y)
             = get_income_statement_lines x ++ get_income_statement_lines y).
  { intros x y. rewrite !get_income_statement_lines_filter.
    rewrite split_app_sep, map_app, filter_app. reflexivity. }
  assert (R : forall l1 l2,
             collect_rows (l1 ++ l2) = collect_rows l1 ++ collect_rows l2).
  { intros l1 l2. rewrite !collect_rows_filter, filter_app, map_app.
    reflexivity. }
  split; [apply G|]. split; [rewrite G; apply R|]. split.
  - rewrite G. change (get_income_statement_lines []) with (@nil str).
    apply app_nil_r.
  - induction texts as [|t texts IH]; [reflexivity|].
    cbn [map concat]. rewrite <- app_assoc. cbn [app].
    rewrite G, R, IH. reflexivity.
Qed.

(** ** The value text of a row *)

Lemma not_in_either {A : Type} (x : A) (l1 l2 : list A) :
  ~ In x l1 -> ~ In x l2 -> ~ In x (l1 ++ l2).
Proof. intros N1 N2 I. apply in_app_or in I. tauto. Qed.

(** The pieces between the commas of a list joined with ", ": the first
    part, then each other part behind a space. *)
Lemma split_join_comma (parts : list str) :
  forall pre : str,
    parts <> [] ->
    ~ In ","%char pre ->
    (forall p, In p parts -> ~ In ","%char p) ->
    Py.split "," (pre ++ Py.join (lit ", ") parts)
    = (pre ++ hd [] parts) :: map (fun t => " "%char :: t) (tl parts).
Proof.
  induction parts as [|p parts IH]; intros pre NE Npre N; [congruence|].
  destruct parts as [|q parts].
  - cbn [Py.join hd tl map]. apply split_without_sep.
    apply not_in_either; [exact Npre | apply N; left; reflexivity].
  - change (Py.join (lit ", ") (p :: q :: parts))
      with (p ++ ","%char :: [" "%char] ++ Py.join (lit ", ") (q :: parts)).
    rewrite app_assoc, split_app_sep, split_without_sep.
    + rewrite IH.
      * reflexivity.
      * discriminate.
      * intros [E | []]. discriminate E.
      * intros x I. apply N. right. exact I.
    + apply not_in_either; [exact Npre | apply N; left; reflexivity].
Qed.

Lemma token_no_comma (token : str) :
  forallb token_alphabet token = true -> ~ In ","%char token.
Proof.
  intros A I. rewrite forallb_forall in A. specialize (A _ I).
  discriminate A.
Qed.

Lemma token_no_space (token : str) :
  forallb token_alphabet token = true ->
  forallb (fun c => negb (Py.isspace c)) token = true.
Proof.
  apply forallb_weaken. intros c C.
  destruct (token_alphabet_facts _ C) as [_ ->]. reflexivity.
Qed.

Lemma strip_after_space (token : str) :
  forallb token_alphabet token = true ->
  Py.strip (" "%char :: token) = token.
Proof.
  intros A. unfold Py.strip. cbn [Py.lstrip].
  change (Py.isspace " ") with true. cbv iota.
  apply (strip_no_space _ (token_no_space _ A)).
Qed.

(** X10.  The value text of a row can be read back: cut at the commas
    and trimmed, it gives the tokens of the row's line, in order. *)
Theorem values_found_round_trip (text : str) (r : row) :
  In r (collect_rows (get_income_statement_lines text)) ->
  map Py.strip (Py.split "," (values_found r))
  = extract_numbers (raw_line r).
Proof.
  intros I. apply in_collect_rows in I.
  destruct I as (line & _ & Q & ->). cbn [make_row raw_line values_found].
  apply qualifies_iff in Q. destruct Q as [_ NE].
  assert (A : forall t, In t (extract_numbers line) ->
                        forallb token_alphabet t = true)
    by (intros t; apply extract_numbers_alphabet).
  rewrite <- (app_nil_l (Py.join _ _)).
  rewrite split_join_comma;
    [ | exact NE | intros [] | intros p J; apply token_no_comma, A, J ].
  destruct (extract_numbers line) as [|t ts]; [congruence|].
  cbn [hd tl map app]. f_equal.
  - apply strip_no_space, token_no_space, A. left. reflexivity.
  - rewrite map_map. apply map_fixed. intros x J.
    apply strip_after_space, A. right. exact J.
Qed.

(** The row of a line with two numbers. *)
Lemma values_found_round_trip_witness :
  In (make_row (lit "Net sales 1,200 (900)") (lit "Revenue")
               [lit "1200"; lit "-900"])
     (collect_rows (get_income_statement_lines (lit "Net sales 1,200 (900)")))
  /\ map Py.strip (Py.split "," (lit "1200, -900"))
     = extract_numbers (lit "Net sales 1,200 (900)").
Proof.
  assert (I : In (make_row (lit "Net sales 1,200 (900)") (lit "Revenue")
                           [lit "1200"; lit "-900"])
                 (collect_rows (get_income_statement_lines
                                  (lit "Net sales 1,200 (900)"))))
    by (vm_compute; left; reflexivity).
  split; [exact I|].
  exact (@values_found_round_trip _ _ I).
Defined.

(** ** Pages that raise, pages without text *)

Section HandlerEdges.

Context {L : PdfPlumber} {P : Pandas}.

(** The loop stops at the first page that raises. *)
Lemma pages_loop_first_failure (before : list page) :
  forall (bad : page) (after : list page) (e : pdf_exn) (text : str),
    (forall pg, In pg before ->
                exists page_text, page_extract_text pg = Return page_text) ->
    page_extract_text bad = Raise e ->
    pages_loop (before ++ bad :: after) text = Raise e.
Proof.
  induction before as [|pg before IH]; intros bad after e text OK B;
    cbn [app pages_loop].
  - rewrite B. reflexivity.
  - destruct (OK pg (or_introl eq_refl)) as [ot E]. rewrite E. cbn [bind].
    assert (OK' : forall q, In q before ->
                            exists ot, page_extract_text q = Return ot)
      by (intros q I; apply OK; right; exact I).
    destruct ot as [[|c t]|]; cbn [Py.truthy]; apply IH; assumption.
Qed.

(** X11.  When a page among the first 40 raises, the request fails with
    the exception of the first such page: the text of the pages before
    it is dropped, the pages after it are not read, and the handler
    raises that same exception. *)
Theorem first_failing_page_wins (file_bytes : list byte) (doc : pdf)
        (before : list page) (bad : page) (after : list page)
        (e : pdf_exn) :
  pdf_open file_bytes = Return doc ->
  firstn 40 (pdf_pages doc) = before ++ bad :: after ->
  (forall pg, In pg before ->
              exists page_text, page_extract_text pg = Return page_text) ->
  page_extract_text bad = Raise e ->
  extract_text_from_pdf file_bytes = Raise e
  /\ extract_financials file_bytes = Raise e
  /\ http_status (extract_financials file_bytes) = 500.
Proof.
  intros O F OK B.
  assert (T : extract_text_from_pdf file_bytes = Raise e).
  { unfold extract_text_from_pdf. rewrite O. cbn [bind]. rewrite F.
    apply pages_loop_first_failure; assumption. }
  pose proof (extract_financials_cases file_bytes) as C. rewrite T in C.
  rewrite C. auto.
Qed.

(** X12.  A document that opens and whose first 40 pages have no text
    (no text at all, or the empty text), a document without pages among
    them, gives the empty text, and the handler answers with the
    informational row in a response with status 200. *)
Theorem textless_document_gives_info (file_bytes : list byte) (doc : pdf) :
  pdf_open file_bytes = Return doc ->
  (forall pg,
      In pg (firstn 40 (pdf_pages doc)) ->
      page_extract_text pg = Return None
      \/ page_extract_text pg = Return (Some [])) ->
  extract_text_from_pdf file_bytes = Return []
  /\ exists r,
       extract_financials file_bytes = Return r /\
       status_code r = 200 /\
       body r = to_csv [info_row].
Proof.
  intros O N.
  assert (T : extract_text_from_pdf file_bytes = Return []).
  { unfold extract_text_from_pdf. rewrite O. cbn [bind].
    rewrite pages_loop_return.
    - cbn [app]. f_equal.
      induction (firstn 40 (pdf_pages doc)) as [|pg pages IH];
        [reflexivity|].
      cbn [map concat]. rewrite IH.
      + unfold contribution_of.
        destruct (N pg (or_introl eq_refl)) as [-> | ->]; reflexivity.
      + intros q I. apply N. right. exact I.
    - intros pg I. destruct (N pg I) as [-> | ->]; eexists; reflexivity. }
  split; [exact T|].
  pose proof (extract_financials_cases file_bytes) as C. rewrite T in C.
  eexists. split; [exact C|]. split; reflexivity.
Qed.

End HandlerEdges.

(** The second page raises: its exception, not the third page's. *)
Lemma first_failing_page_wins_witness :
  extract_financials (L := strict_text_reader) (P := plain_csv_writer)
    (bytes_of "Net sales 5" ++ [x0c] ++ bytes_of "!second" ++ [x0c]
     ++ bytes_of "!third")
  = Raise (lit "!second").
Proof.
  assert (O : pdf_open (PdfPlumber := strict_text_reader)
                (bytes_of "Net sales 5" ++ [x0c] ++ bytes_of "!second"
                 ++ [x0c] ++ bytes_of "!third")
              = Return [lit "Net sales 5"; lit "!second"; lit "!third"])
    by reflexivity.
  assert (OK : forall pg : page (PdfPlumber := strict_text_reader),
             In pg [lit "Net sales 5"] ->
             exists page_text, page_extract_text pg = Return page_text).
  { intros pg [<- | []]. eexists. reflexivity. }
  exact (proj1 (proj2
           (@first_failing_page_wins strict_text_reader plain_csv_writer
              _ _ [lit "Net sales 5"] (lit "!second") [lit "!third"]
              (lit "!second") O eq_refl OK eq_refl))).
Defined.

(** Two empty pages. *)
Lemma textless_document_gives_info_witness :
  extract_text_from_pdf (L := plain_text_reader) [x0c] = Return []
  /\ http_status
       (extract_financials (L := plain_text_reader) (P := plain_csv_writer)
          [x0c])
     = 200.
Proof.
  assert (O : pdf_open (PdfPlumber := plain_text_reader) [x0c]
              = Return [[]; []]) by reflexivity.
  assert (N : forall pg : page (PdfPlumber := plain_text_reader),
             In pg (firstn 40 (pdf_pages (PdfPlumber := plain_text_reader)
                                 [[]; []])) ->
             page_extract_text pg = Return None
             \/ page_extract_text pg = Return (Some [])).
  { intros pg I. cbn in I. destruct I as [<- | [<- | []]];
      left; reflexivity. }
  destruct (@textless_document_gives_info plain_text_reader plain_csv_writer
              _ _ O N) as (T & r & R & S & _).
  split; [exact T|]. rewrite R. exact S.
Defined.

(** ** Numbers that come out malformed *)

(** A line that is one substring of the numeric shape gives one token. *)
Lemma extract_numbers_single (m : str) :
  token_shape m -> extract_numbers m = [clean_number m].
Proof.
  intros Sh. rewrite extract_numbers_map, findall_unfold, match_at_number_re.
  destruct (@lex_number_longest m [] Sh) as (ext & rest & Lx & E).
  symmetry in E. apply app_eq_nil in E. destruct E as [-> ->].
  rewrite !app_nil_r in Lx. rewrite Lx.
  pose proof (token_shape_nonempty Sh) as NE.
  destruct m as [|c m]; [congruence|].
  rewrite findall_unfold, match_at_number_re. reflexivity.
Qed.

Lemma strip_commas_digits (body : str) :
  forallb Py.isdecimal body = true -> strip_commas body = body.
Proof.
  intros B. unfold strip_commas. apply filter_keeps_all. intros c I.
  rewrite forallb_forall in B. rewrite (isdecimal_no_comma _ (B c I)).
  reflexivity.
Qed.

(** X13.  A negative number written in parentheses gets two minus
    signs: the line "(-" digits ")" gives the single token "--" digits
    (commas removed), which is not a signed decimal numeral. *)
Theorem parenthesized_negative_doubles_sign (d : ascii) (body : str) :
  Py.isdecimal d = true ->
  forallb in_body body = true ->
  extract_numbers (lit "(-" ++ d :: body ++ lit ")")
  = [lit "--" ++ d :: strip_commas body]
  /\ is_signed_decimal (lit "--" ++ d :: strip_commas body) = false.
Proof.
  intros D B. split; [|reflexivity].
  change (lit "(-" ++ d :: body ++ lit ")")
    with (lit "(" ++ lit "-" ++ d :: body ++ lit ")").
  rewrite extract_numbers_single.
  - rewrite clean_number_shape; auto.
  - constructor; auto.
Qed.

(** Minus twelve thousand, the accounting way and signed. *)
Lemma parenthesized_negative_doubles_sign_witness :
  extract_numbers (lit "(-12,000)") = [lit "--12000"]
  /\ is_signed_decimal (lit "--12000") = false.
Proof.
  exact (@parenthesized_negative_doubles_sign "1" (lit "2,000")
           eq_refl eq_refl).
Defined.

(** X14.  A full stop after a number stays in the token: a line that
    ends with digits and a period gives, for them, a token that ends
    with the period, which is not a signed decimal numeral. *)
Theorem sentence_final_period_is_kept (before : str) (c d : ascii)
        (digits : str) :
  match_char c = false ->
  Py.isdecimal d = true ->
  forallb Py.isdecimal digits = true ->
  extract_numbers (before ++ c :: d :: digits ++ lit ".")
  = extract_numbers before ++ [d :: digits ++ lit "."]
  /\ is_signed_decimal (d :: digits ++ lit ".") = false.
Proof.
  intros C D B.
  assert (IB : forallb in_body (digits ++ lit ".") = true).
  { rewrite forallb_app.
    rewrite (@forallb_weaken _ Py.isdecimal in_body digits isdecimal_in_body B).
    reflexivity. }
  split.
  - rewrite (@scans_findall_tokens before (d :: digits ++ lit ".") c C).
    f_equal.
    assert (E : d :: digits ++ lit "."
                = [] ++ [] ++ d :: (digits ++ lit ".") ++ [])
      by (cbn [app]; rewrite app_nil_r; reflexivity).
    rewrite E at 1.
    rewrite extract_numbers_single by (constructor; auto).
    rewrite clean_number_shape by auto.
    cbn [Py.truthy andb app]. rewrite app_nil_r.
    unfold strip_commas. rewrite filter_app.
    fold (strip_commas digits). rewrite (@strip_commas_digits digits B).
    reflexivity.
  - unfold is_signed_decimal.
    destruct (isdecimal_no_sign _ D) as [_ M].
    rewrite Ascii.eqb_sym, M.
    change (d :: digits ++ lit ".") with ((d :: digits) ++ lit ".").
    rewrite span_app by (cbn [forallb]; rewrite D; exact B).
    reflexivity.
Qed.

(** The end of a sentence. *)
Lemma sentence_final_period_is_kept_witness :
  extract_numbers (lit "Net sales rose to 500.")
  = extract_numbers (lit "Net sales rose to") ++ [lit "500."]
  /\ is_signed_decimal (lit "500.") = false.
Proof.
  exact (@sentence_final_period_is_kept (lit "Net sales rose to") " " "5"
           (lit "00") eq_refl eq_refl eq_refl).
Defined.
